(** * Distress scanner: multi-pass enrichment scheduler and signal fusion

    A shallow embedding of the scoring, parsing, persistence and scheduling
    code of the distress scanner, together with the properties its design
    document states about them.

    Conventions of the embedding.
    - Python [float] values are idealised as exact rationals ([Q]); Python
      [int] values are [Z].  [round(x, n)] is rounding to [n] decimals with
      ties to even, as the builtin does on the exact value of its argument.
    - [None] is [option]'s [None]; the truth value Python gives to a value in
      a condition is written out by the [truthy_*] functions.
    - A Python [dict] with string keys is a [gmap string _]; a SQL table is
      the list of its rows.
    - Code that raises is a function into [option] or into a sum type whose
      constructors name the outcome.
    - What other threads and the outside world do (the outcome of a network
      call, whether the store is reachable, results appended by other
      workers while a flush is running) is an explicit argument. *)

From Stdlib Require Import ZArith QArith Qround Qabs Lia Lqa List Bool Ascii String
  DecimalString.
From stdpp Require Import base option list gmap strings.

Local Open Scope Z_scope.

(* ===================================================================== *)
(** * Part I: the embedding                                                *)
(* ===================================================================== *)

(** ** Python builtins used by the code *)
Module Py.

Local Open Scope Q_scope.

(** [max(a, b)] and [min(a, b)] on numbers: Python returns the first
    argument unless the second is strictly larger (resp. smaller). *)
Definition max (a b : Q) : Q := if Qlt_le_dec a b then b else a.
Definition min (a b : Q) : Q := if Qlt_le_dec b a then b else a.

Definition gtb (a b : Q) : bool := if Qlt_le_dec b a then true else false.
Definition leb (a b : Q) : bool := if Qlt_le_dec b a then false else true.
Definition eqb (a b : Q) : bool := Qeq_bool a b.

(** [round(x, ndigits)]: nearest multiple of [10^-ndigits], ties to the
    even multiple. *)
Definition round (x : Q) (ndigits : nat) : Q :=
  let scale := (10 ^ Z.of_nat ndigits)%Z in
  let y := x * inject_Z scale in
  let f := Qfloor y in
  let r := y - inject_Z f in
  let n :=
    if Qlt_le_dec r (1 # 2) then f
    else if Qlt_le_dec (1 # 2) r then (f + 1)%Z
    else if Z.even f then f else (f + 1)%Z in
  Qred (inject_Z n / inject_Z scale).

(** Truth value of [None]-able booleans and strings. *)
Definition truthy_bool (o : option bool) : bool :=
  match o with Some b => b | None => false end.
Definition truthy_str (o : option string) : bool :=
  match o with Some s => negb (String.eqb s "") | None => false end.

(** [x or 0] for a [None]-able number. *)
Definition or_zero (o : option Q) : Q :=
  match o with
  | Some q => if Qeq_bool q 0 then 0 else q
  | None => 0
  end.

End Py.

(** ** Python string methods used by the code

    Strings are ASCII strings: what [str.isdigit], [str.upper] and
    [str.split] do on characters outside ASCII is not modelled. *)
Module PyStr.

Local Open Scope string_scope.

Definition char_in (lo hi : nat) (c : ascii) : bool :=
  (lo <=? nat_of_ascii c)%nat && (nat_of_ascii c <=? hi)%nat.

(** [str.isspace] on one character: tab to carriage return, the four
    separators 0x1c-0x1f, and space. *)
Definition is_space (c : ascii) : bool :=
  char_in 9 13 c || char_in 28 32 c.

Definition is_digit (c : ascii) : bool := char_in 48 57 c.

Definition upper_char (c : ascii) : ascii :=
  if char_in 97 122 c then ascii_of_nat (nat_of_ascii c - 32) else c.

Fixpoint all_chars (p : ascii -> bool) (s : string) : bool :=
  match s with
  | EmptyString => true
  | String c rest => p c && all_chars p rest
  end.

(** [s.isdigit()]: at least one character, all of them digits. *)
Definition isdigit (s : string) : bool :=
  negb (String.eqb s "") && all_chars is_digit s.

Fixpoint upper (s : string) : string :=
  match s with
  | EmptyString => EmptyString
  | String c rest => String (upper_char c) (upper rest)
  end.

Fixpoint lstrip (p : ascii -> bool) (s : string) : string :=
  match s with
  | EmptyString => EmptyString
  | String c rest => if p c then lstrip p rest else s
  end.

Fixpoint rstrip (p : ascii -> bool) (s : string) : string :=
  match s with
  | EmptyString => EmptyString
  | String c rest =>
      let rest' := rstrip p rest in
      if String.eqb rest' "" && p c then EmptyString else String c rest'
  end.

(** [s.strip()] *)
Definition strip (s : string) : string := rstrip is_space (lstrip is_space s).

(** [s.split()]: the maximal runs of characters that are not whitespace. *)
Fixpoint split_from (tok : string) (s : string) : list string :=
  match s with
  | EmptyString => if String.eqb tok "" then [] else [tok]
  | String c rest =>
      if is_space c then
        if String.eqb tok "" then split_from "" rest
        else tok :: split_from "" rest
      else split_from (tok ++ String c "") rest
  end.

Definition split (s : string) : list string := split_from "" s.

(** [sep.join(parts)] *)
Definition join (sep : string) (parts : list string) : string :=
  String.concat sep parts.

(** [s[:n]], [s[n:]] and [s[n]] for [n] within the string. *)
Definition prefix (n : nat) (s : string) : string := String.substring 0 n s.
Definition suffix_from (n : nat) (s : string) : string :=
  String.substring n (String.length s - n) s.

(** [x in collection] for a set of strings. *)
Definition mem (x : string) (l : list string) : bool :=
  existsb (String.eqb x) l.

End PyStr.

(** ** src/usps/vacancy.py: the situs parser *)
Module Situs.

Import PyStr.
Local Open Scope string_scope.

Definition _STATE_CODES : list string :=
  [ "AL"; "AK"; "AZ"; "AR"; "CA"; "CO"; "CT"; "DE"; "FL"; "GA";
    "HI"; "ID"; "IL"; "IN"; "IA"; "KS"; "KY"; "LA"; "ME"; "MD";
    "MA"; "MI"; "MN"; "MS"; "MO"; "MT"; "NE"; "NV"; "NH"; "NJ";
    "NM"; "NY"; "NC"; "ND"; "OH"; "OK"; "OR"; "PA"; "RI"; "SC";
    "SD"; "TN"; "TX"; "UT"; "VT"; "VA"; "WA"; "WV"; "WI"; "WY";
    "DC" ].

Definition _AMBIGUOUS_STATE_SUFFIX : list string :=
  [ "CT"; "IN"; "AL"; "ME"; "OR" ].

Definition street_suffixes : list string :=
  [ "ST"; "AVE"; "AV"; "RD"; "DR"; "LN"; "CT"; "CIR"; "BLVD";
    "WAY"; "PL"; "TRL"; "LOOP"; "HWY"; "PKY"; "PKWY"; "COVE";
    "CV"; "RUN"; "PATH"; "PASS"; "PT"; "PIKE"; "SQ"; "TER";
    "TERR"; "ALY"; "ROW"; "WALK"; "XING"; "EXT"; "BND"; "CRES";
    "GRV"; "HOLW"; "IS"; "KNL"; "LK"; "LNDG"; "MALL"; "MNR";
    "MDW"; "MDWS"; "ML"; "MLS"; "OVAL"; "PARK"; "PLZ"; "RIDGE";
    "RDG"; "SHR"; "SPG"; "SPUR"; "TRCE"; "VLY"; "VW"; "VISTA" ].

Definition skip_words : list string :=
  [ "UNINC"; "UNINCORP"; "UNINCORPORATED"; "COUNTY"; "TWP"; "TOWNSHIP" ].

(** The dictionary [split_situs] returns. *)
Record situs_parts := {
  street : string;
  city : option string;
  state : option string;
  zip_code : option string
}.

(** The ZIP test on the last token: [Some zip] when it is five digits, or
    five digits, a dash and four digits. *)
Definition trailing_zip (last : string) : option string :=
  if (String.length last =? 5)%nat && isdigit last then Some last
  else if (String.length last =? 10)%nat
          && (if String.get 5 last is Some c then Ascii.eqb c "-" else false)
          && isdigit (prefix 5 last) && isdigit (suffix_from 6 last)
  then Some (prefix 5 last)
  else None.

(** [parts[-1]], [parts[-2]], [parts[:-1]] and [parts[:-2]]. *)
Definition last_part (parts : list string) : string :=
  nth (length parts - 1) parts "".
Definition second_last_part (parts : list string) : string :=
  nth (length parts - 2) parts "".

(** [token.upper().rstrip(",.")] *)
Definition suffix_token (t : string) : string :=
  rstrip (fun c => Ascii.eqb c "," || Ascii.eqb c ".") (upper t).

(** The [while idx > 0] loop: returns the final [idx] and [city_parts]. *)
Fixpoint walk (parts : list string) (idx : nat) (city_parts : list string)
    : nat * list string :=
  match idx with
  | O => (O, city_parts)
  | S idx' =>
      if mem (suffix_token (nth idx parts "")) street_suffixes
      then (idx, city_parts)
      else walk parts idx' (nth idx parts "" :: city_parts)
  end.

(** The state, city and street steps of [split_situs], on the parts that
    are left once the ZIP has been taken off (the code from "Check if last
    token is a 2-letter state code" to the end). *)
Definition split_parts (parts : list string) (zip_code : option string)
    (fallback_state fallback_city : option string) : situs_parts :=
  if (3 <=? length parts)%nat && mem (upper (last_part parts)) _STATE_CODES then
    let state := upper (last_part parts) in
    if mem state _AMBIGUOUS_STATE_SUFFIX
       && Py.truthy_str fallback_state
       && negb (String.eqb state (upper (default "" fallback_state)))
    then {| street := join " " parts; city := fallback_city;
            state := fallback_state; zip_code := zip_code |}
    else
      let city_candidate := upper (second_last_part parts) in
      if mem city_candidate skip_words || isdigit city_candidate then
        {| street := join " " (take (length parts - 2) parts);
           city := fallback_city; state := Some state; zip_code := zip_code |}
      else
        let '(idx, city_parts) := walk parts (length parts - 2) [] in
        match city_parts with
        | [] =>
            {| street := join " " (take (length parts - 2) parts);
               city := Some (second_last_part parts);
               state := Some state; zip_code := zip_code |}
        | _ :: _ =>
            {| street := join " " (take (idx + 1) parts);
               city := Some (join " " city_parts);
               state := Some state; zip_code := zip_code |}
        end
  else
    {| street := join " " parts; city := fallback_city;
       state := fallback_state; zip_code := zip_code |}.

Definition split_situs (situs : string)
    (fallback_state fallback_city : option string) : situs_parts :=
  let parts := split (strip situs) in
  match parts with
  | [] => {| street := situs; city := fallback_city; state := fallback_state;
             zip_code := None |}
  | _ :: _ =>
      let zip_code := trailing_zip (last_part parts) in
      let parts := if zip_code is Some _ then take (length parts - 1) parts else parts in
      match parts with
      | [] => {| street := strip situs; city := fallback_city;
                 state := fallback_state; zip_code := zip_code |}
      | _ :: _ => split_parts parts zip_code fallback_state fallback_city
      end
  end.

(** *** The canonical shape of an address *)



End Situs.

(** ** scripts/batch_conviction_score.py *)
Module Conviction.

Local Open Scope Q_scope.

Definition W_DS : Q := 35 # 100.
Definition W_MC : Q := 40 # 100.
Definition MC_CAP : Q := 7.
Definition VAC_BONUS_MAX : Q := 25 # 10.

Definition clamp (x lo hi : Q) : Q := Py.max lo (Py.min x hi).

(** The tuple [compute_conviction] returns. *)
Record conviction := {
  conviction_score : option Q;
  base_score : option Q;
  vacancy_bonus : Q;
  components : list string
}.

Definition mc_missing (mc_count : option Z) : bool :=
  match mc_count with None => true | Some c => (c =? 0)%Z end.

Definition compute_conviction
    (ds_composite : option Q) (mc_raw : Q) (mc_count : option Z)
    (flag_vacancy : option bool) (vac_conf : option Q)
    (usps_error : option string) : conviction :=
  let ds_comp :=
    match ds_composite with
    | None => None
    | Some ds => Some (clamp (ds / 10) 0 1)
    end in
  let mc_comp :=
    if mc_missing mc_count then None else Some (clamp (mc_raw / MC_CAP) 0 1) in
  let vac_bonus :=
    if Py.truthy_bool flag_vacancy && negb (Py.truthy_str usps_error) then
      let vc := clamp (match vac_conf with Some c => c | None => 8 # 10 end) 0 1 in
      VAC_BONUS_MAX * vc
    else 0 in
  let base_sum :=
    (if ds_comp is Some _ then W_DS else 0) + (if mc_comp is Some _ then W_MC else 0) in
  if Py.eqb base_sum 0 then
    {| conviction_score := None; base_score := None;
       vacancy_bonus := Py.round vac_bonus 2; components := [] |}
  else
    let base :=
      10 * ((W_DS * Py.or_zero ds_comp) + (W_MC * Py.or_zero mc_comp)) / base_sum in
    let score := Py.round (clamp (base + vac_bonus) 0 10) 2 in
    {| conviction_score := Some score;
       base_score := Some (Py.round base 2);
       vacancy_bonus := Py.round vac_bonus 2;
       components :=
         (if ds_comp is Some _ then ["DS"%string] else []) ++
         (if mc_comp is Some _ then ["MC"%string] else []) ++
         (if Py.gtb vac_bonus 0 then ["VAC"%string] else []) |}.

End Conviction.

(** ** scripts/batch_usps_enrich.py: the consumer loop *)
Module UspsConsumer.

(** What the call [flush_buffer(dry_run)] inside one iteration did: the
    buffer was below [flush_every] (no call), the call returned, or it
    raised.  The buffer is shared with the other consumers, so whether the
    threshold is reached is decided outside this thread. *)
Inductive flush_outcome := NoFlush | FlushReturned | FlushRaised.

(** One parcel pulled from the work queue: [check_single_parcel] raised, or
    returned a row with these [usps_error] and [usps_vacant] fields. *)
Inductive iteration :=
| CheckRaised
| Checked (usps_error : option string) (usps_vacant : option bool)
          (fl : flush_outcome).

Record consumer := {
  consecutive_errors : nat;
  shutdown_event : bool;
  slept : nat;               (* seconds spent in [time.sleep] *)
  stats_checked : nat;
  stats_errors : nat;
  stats_vacant : nat;
  stats_occupied : nat
}.

Definition initial : consumer :=
  {| consecutive_errors := 0; shutdown_event := false; slept := 0;
     stats_checked := 0; stats_errors := 0; stats_vacant := 0;
     stats_occupied := 0 |}.

Definition set_consecutive (n : nat) (c : consumer) : consumer :=
  {| consecutive_errors := n; shutdown_event := shutdown_event c;
     slept := slept c; stats_checked := stats_checked c;
     stats_errors := stats_errors c; stats_vacant := stats_vacant c;
     stats_occupied := stats_occupied c |}.

(** The [with stats_lock:] block. *)
Definition count_result (usps_error : option string) (usps_vacant : option bool)
    (c : consumer) : consumer :=
  if Py.truthy_str usps_error then
    {| consecutive_errors := consecutive_errors c + 1;
       shutdown_event := shutdown_event c; slept := slept c;
       stats_checked := stats_checked c + 1;
       stats_errors := stats_errors c + 1;
       stats_vacant := stats_vacant c; stats_occupied := stats_occupied c |}
  else
    {| consecutive_errors := 0;
       shutdown_event := shutdown_event c; slept := slept c;
       stats_checked := stats_checked c + 1;
       stats_errors := stats_errors c;
       stats_vacant :=
         (if usps_vacant is Some true then stats_vacant c + 1 else stats_vacant c);
       stats_occupied :=
         (if usps_vacant is Some false then stats_occupied c + 1
          else stats_occupied c) |}.

(** [if consecutive_errors >= 10: ... time.sleep(300); consecutive_errors = 0] *)
Definition pause_breaker (c : consumer) : consumer :=
  if (10 <=? consecutive_errors c)%nat then
    {| consecutive_errors := 0; shutdown_event := shutdown_event c;
       slept := slept c + 300; stats_checked := stats_checked c;
       stats_errors := stats_errors c; stats_vacant := stats_vacant c;
       stats_occupied := stats_occupied c |}
  else c.

(** [if consecutive_errors >= 20: ... shutdown_event.set(); break];
    the boolean says whether the loop was left by [break]. *)
Definition abort_breaker (c : consumer) : consumer * bool :=
  if (20 <=? consecutive_errors c)%nat then
    ({| consecutive_errors := consecutive_errors c; shutdown_event := true;
        slept := slept c; stats_checked := stats_checked c;
        stats_errors := stats_errors c; stats_vacant := stats_vacant c;
        stats_occupied := stats_occupied c |}, true)
  else (c, false).

(** The body of the [while] loop for one parcel. *)
Definition iterate (c : consumer) (it : iteration) : consumer * bool :=
  match it with
  | CheckRaised =>
      (* except Exception: consecutive_errors += 1 *)
      (set_consecutive (consecutive_errors c + 1) c, false)
  | Checked usps_error usps_vacant fl =>
      let c1 := count_result usps_error usps_vacant c in
      match fl with
      | FlushRaised => (set_consecutive (consecutive_errors c1 + 1) c1, false)
      | NoFlush | FlushReturned => abort_breaker (pause_breaker c1)
      end
  end.

(** [consumer_thread]: [work] is what this consumer pulls from the queue,
    in order; the queue running empty ends the loop. *)
Fixpoint consumer_thread (c : consumer) (work : list iteration) : consumer :=
  match work with
  | [] => c
  | it :: rest =>
      if shutdown_event c then c
      else
        let '(c', stop) := iterate c it in
        if stop then c' else consumer_thread c' rest
  end.

End UspsConsumer.

(** ** src/analysis/flags.py *)
Module Flags.

Local Open Scope Q_scope.

Definition NDVI_OVERGROWTH_MODERATE : Q := 50 # 100.
Definition NDVI_OVERGROWTH_STRONG : Q := 65 # 100.
Definition NDVI_OVERGROWTH_CHANGE : Q := 15 # 100.

(** The fields of the [naip] and [sentinel] dictionaries the evaluator
    reads; [*_errors] is the truth value of the ["errors"] entry.  An empty
    dictionary is falsy in Python and reads as all-[None] here, which takes
    the same path (nothing fires). *)
Record naip := {
  naip_errors : bool;
  current_ndvi : option Q;
  mean_historical_ndvi : option Q
}.

Record sentinel := {
  sentinel_errors : bool;
  trend_slope : option Q;
  trend_direction : option string;
  latest_ndvi : option Q
}.

Inductive evidence_value := EvNum (q : Q) | EvStr (s : string).

Record flag_result := {
  flag : bool;
  confidence : Q;
  signal_code : string;
  evidence : gmap string evidence_value
}.

Definition ev_is (ev : gmap string evidence_value) (k v : string) : bool :=
  match ev !! k with
  | Some (EvStr s) => String.eqb s v
  | _ => false
  end.

(** The "NAIP baseline check" block: [(naip_flag, naip_conf, evidence)]. *)
Definition naip_check (n : option naip) : bool * Q * gmap string evidence_value :=
  match n with
  | Some n =>
      if naip_errors n then (false, 0, ∅)
      else
        match current_ndvi n with
        | Some current =>
            if Py.gtb current NDVI_OVERGROWTH_STRONG then
              match mean_historical_ndvi n with
              | Some hist_mean =>
                  if Py.gtb current (hist_mean + NDVI_OVERGROWTH_CHANGE) then
                    (true, Py.min ((current - hist_mean) / (3 # 10)) 1,
                     <["tier" := EvStr "strong"]>
                     (<["naip_delta" := EvNum (Py.round (current - hist_mean) 4)]>
                     (<["naip_historical_mean" := EvNum hist_mean]>
                     (<["naip_current_ndvi" := EvNum current]> ∅))))
                  else (false, 0, ∅)
              | None =>
                  (true, 6 # 10,
                   <["tier" := EvStr "strong"]>
                   (<["note" := EvStr "no_historical_baseline"]>
                   (<["naip_current_ndvi" := EvNum current]> ∅)))
              end
            else if Py.gtb current NDVI_OVERGROWTH_MODERATE then
              match mean_historical_ndvi n with
              | Some hist_mean =>
                  if Py.gtb current (hist_mean + NDVI_OVERGROWTH_CHANGE) then
                    (true, Py.min ((current - hist_mean) / (3 # 10)) (8 # 10),
                     <["tier" := EvStr "moderate"]>
                     (<["naip_delta" := EvNum (Py.round (current - hist_mean) 4)]>
                     (<["naip_historical_mean" := EvNum hist_mean]>
                     (<["naip_current_ndvi" := EvNum current]> ∅))))
                  else (false, 0, ∅)
              | None => (false, 0, ∅)
              end
            else (false, 0, ∅)
        | None => (false, 0, ∅)
        end
  | None => (false, 0, ∅)
  end.

(** The "Sentinel trend check" block, writing into the evidence so far. *)
Definition sentinel_check (s : option sentinel) (ev : gmap string evidence_value)
    : bool * Q * gmap string evidence_value :=
  match s with
  | Some s =>
      if sentinel_errors s then (false, 0, ev)
      else
        match trend_direction s, trend_slope s with
        | Some direction, Some slope =>
            if String.eqb direction "increasing" then
              match latest_ndvi s with
              | Some latest =>
                  if negb (Py.eqb latest 0) && Py.gtb latest NDVI_OVERGROWTH_MODERATE then
                    (true, Py.min (slope / (2 # 100)) 1,
                     <["sentinel_latest_ndvi" := EvNum latest]>
                     (<["sentinel_direction" := EvStr direction]>
                     (<["sentinel_slope" := EvNum slope]> ev)))
                  else (false, 0, ev)
              | None => (false, 0, ev)
              end
            else (false, 0, ev)
        | _, _ => (false, 0, ev)
        end
  | None => (false, 0, ev)
  end.

Definition evaluate_vegetation_overgrowth (n : option naip) (s : option sentinel)
    : flag_result :=
  let '(naip_flag, naip_conf, ev1) := naip_check n in
  let '(sentinel_flag, sentinel_conf, ev2) := sentinel_check s ev1 in
  if naip_flag && sentinel_flag then
    {| flag := true;
       confidence := Py.min (Py.max naip_conf sentinel_conf + (2 # 10)) 1;
       signal_code := "vegetation_overgrowth";
       evidence := <["agreement" := EvStr "naip_and_sentinel"]> ev2 |}
  else if naip_flag then
    {| flag := true;
       confidence :=
         (if ev_is ev2 "tier" "strong" && ev_is ev2 "note" "no_historical_baseline"
          then naip_conf else naip_conf * (8 # 10));
       signal_code := "vegetation_overgrowth";
       evidence := <["source" := EvStr "naip_only"]> ev2 |}
  else if sentinel_flag then
    {| flag := true;
       confidence := sentinel_conf * (7 # 10);
       signal_code := "vegetation_overgrowth";
       evidence := <["source" := EvStr "sentinel_only"]> ev2 |}
  else
    {| flag := false; confidence := 0;
       signal_code := "vegetation_overgrowth"; evidence := ev2 |}.

End Flags.

(** ** src/naip/baseline.py *)
Module Baseline.

Local Open Scope Q_scope.

(** [sum(...)] of a generator: starts from 0 and adds from the left. *)
Definition sumZ (l : list Z) : Z := fold_left Z.add l 0%Z.
Definition sumQ (l : list Q) : Q := fold_left Qplus l 0.

(** The outcome of a call: a returned value, or [ZeroDivisionError]. *)
Inductive outcome (A : Type) :=
| Return (a : A)
| ZeroDivisionError.
Arguments Return {A} a.
Arguments ZeroDivisionError {A}.

(** [a / b] on numbers. *)
Definition truediv (a b : Q) : outcome Q :=
  if Qeq_bool b 0 then ZeroDivisionError else Return (a / b).

(** Points are [(year, ndvi)]; the callers build the year as an [int]. *)
Definition compute_ndvi_slope (points : list (Z * Q)) : outcome (option Q) :=
  if (length points <? 2)%nat then Return None
  else
    let n := Z.of_nat (length points) in
    let sum_x := sumZ (map (fun p => fst p) points) in
    let sum_y := sumQ (map (fun p => snd p) points) in
    let sum_xy := sumQ (map (fun p => inject_Z (fst p) * snd p) points) in
    let sum_x2 := sumZ (map (fun p => (fst p ^ 2)%Z) points) in
    let denom := (n * sum_x2 - sum_x ^ 2)%Z in
    if (denom =? 0)%Z then Return (Some 0)
    else
      match truediv (inject_Z n * sum_xy - inject_Z sum_x * sum_y) (inject_Z denom) with
      | Return slope => Return (Some (Py.round slope 6))
      | ZeroDivisionError => ZeroDivisionError
      end.

(** The least-squares slope as the design document writes it, with
    mathematical sums over the points. *)
Definition Sigma {A} (f : A -> Q) (l : list A) : Q :=
  fold_right (fun a acc => f a + acc) 0 l.





End Baseline.

(** ** src/db.py: the parcel store and its batched updates *)
Module Db.

(** Values of Python dictionaries and of SQL columns; [VNull] is both
    [None] and SQL [NULL]. *)
Inductive value :=
| VNull
| VBool (b : bool)
| VInt (z : Z)
| VNum (q : Q)
| VStr (s : string)
| VTime (t : Z).

(** Truth value of [r.get(key)]. *)
Definition truthy (o : option value) : bool :=
  match o with
  | None | Some VNull => false
  | Some (VBool b) => b
  | Some (VInt z) => negb (z =? 0)%Z
  | Some (VNum q) => negb (Qeq_bool q 0)
  | Some (VStr s) => negb (String.eqb s "")
  | Some (VTime _) => true
  end.

(** A column of a table row; a column never written reads as [NULL]. *)
Definition column (cur : gmap string value) (c : string) : value :=
  default VNull (cur !! c).

(** SQL [=] as a condition: true only for two equal non-null values. *)
Definition sql_eq (a b : value) : bool :=
  match a, b with
  | VStr x, VStr y => String.eqb x y
  | VInt x, VInt y => (x =? y)%Z
  | _, _ => false
  end.

(** The right-hand sides that occur in the [UPDATE] statements. *)
Inductive sql_expr :=
| Param (name : string)                         (* %(name)s *)
| NOW                                           (* NOW() *)
| NULL
| FALSE
| GREATEST_COALESCE_0 (col : string) (name : string).
    (* GREATEST(COALESCE(col, 0), %(name)s) *)

(** [UPDATE gis_parcels_core SET col = expr, ...
     WHERE parcel_id = %(parcel_id)s AND county = %(county)s] *)
Definition update_stmt := list (string * sql_expr).

Definition expr_params (e : sql_expr) : list string :=
  match e with
  | Param k => [k]
  | GREATEST_COALESCE_0 _ k => [k]
  | NOW | NULL | FALSE => []
  end.

Definition stmt_params (stmt : update_stmt) : list string :=
  flat_map (fun ce => expr_params ce.2) stmt ++ ["parcel_id"; "county"]%string.

(** Evaluation of a right-hand side on the row as it was before the
    update; [None] is an error raised by the driver or the server. *)
Definition eval_expr (now : Z) (params cur : gmap string value) (e : sql_expr)
    : option value :=
  match e with
  | Param k => params !! k
  | NOW => Some (VTime now)
  | NULL => Some VNull
  | FALSE => Some (VBool false)
  | GREATEST_COALESCE_0 c k =>
      match column cur c, params !! k with
      | VInt old, Some (VInt new) => Some (VInt (Z.max old new))
      | VNull, Some (VInt new) => Some (VInt (Z.max 0 new))
      | VInt old, Some VNull => Some (VInt old)
      | VNull, Some VNull => Some (VInt 0)
      | _, _ => None
      end
  end.

Fixpoint set_columns (now : Z) (stmt : update_stmt)
    (params cur acc : gmap string value) : option (gmap string value) :=
  match stmt with
  | [] => Some acc
  | (c, e) :: rest =>
      match eval_expr now params cur e with
      | Some v => set_columns now rest params cur (<[c := v]> acc)
      | None => None
      end
  end.

Definition where_matches (params cur : gmap string value) : bool :=
  sql_eq (column cur "parcel_id") (default VNull (params !! "parcel_id"))
  && sql_eq (column cur "county") (default VNull (params !! "county")).

Fixpoint update_rows (now : Z) (stmt : update_stmt) (params : gmap string value)
    (t : list (gmap string value)) : option (list (gmap string value)) :=
  match t with
  | [] => Some []
  | cur :: rest =>
      match (if where_matches params cur
             then set_columns now stmt params cur cur else Some cur),
            update_rows now stmt params rest with
      | Some cur', Some rest' => Some (cur' :: rest')
      | _, _ => None
      end
  end.

(** [cur.execute(sql, params)]: a parameter the statement names and the
    dictionary lacks raises [KeyError] before anything is sent. *)
Definition execute (now : Z) (stmt : update_stmt) (params : gmap string value)
    (t : list (gmap string value)) : option (list (gmap string value)) :=
  if forallb (fun k => bool_decide (is_Some (params !! k))) (stmt_params stmt)
  then update_rows now stmt params t
  else None.

(** [execute_batch(cur, sql, argslist)]: the statement once per
    dictionary, in order. *)
Fixpoint execute_batch (now : Z) (stmt : update_stmt)
    (argslist : list (gmap string value)) (t : list (gmap string value))
    : option (list (gmap string value)) :=
  match argslist with
  | [] => Some t
  | params :: rest =>
      match execute now stmt params t with
      | Some t' => execute_batch now stmt rest t'
      | None => None
      end
  end.

(** [results[i:i + chunk_size] for i in range(0, len(results), chunk_size)] *)
Fixpoint chunks_fuel {A} (fuel chunk_size : nat) (l : list A) : list (list A) :=
  match fuel with
  | O => []
  | S fuel' =>
      match l with
      | [] => []
      | _ => take chunk_size l :: chunks_fuel fuel' chunk_size (drop chunk_size l)
      end
  end.

Definition chunks {A} (chunk_size : nat) (l : list A) : list (list A) :=
  chunks_fuel (length l) chunk_size l.

(** What a call left behind: the table as committed, and the returned
    count or [None] when the call raised. *)
Record db_result := {
  committed : list (gmap string value);
  returned : option Z
}.

(** The chunk loop shared by the scan, slope and sentinel updates: each
    chunk is committed on its own; a chunk that raises is not committed
    and ends the call. *)
Fixpoint run_chunks (now : Z) (stmt : update_stmt)
    (cs : list (list (gmap string value))) (t : list (gmap string value))
    : list (gmap string value) * bool :=
  match cs with
  | [] => (t, true)
  | c :: rest =>
      match execute_batch now stmt c t with
      | Some t' => run_chunks now stmt rest t'
      | None => (t, false)
      end
  end.

Definition chunked_update (now : Z) (stmt : update_stmt)
    (results : list (gmap string value)) (t : list (gmap string value)) : db_result :=
  match results with
  | [] => {| committed := t; returned := Some 0%Z |}
  | _ =>
      let '(t', ok) := run_chunks now stmt (chunks 500 results) t in
      {| committed := t';
         returned := if ok then Some (Z.of_nat (length results)) else None |}
  end.

Definition scan_update_sql : update_stmt :=
  [ ("ndvi_score", Param "ndvi_score"); ("ndvi_date", Param "ndvi_date");
    ("ndvi_category", Param "ndvi_category"); ("fema_zone", Param "fema_zone");
    ("fema_risk", Param "fema_risk"); ("fema_sfha", Param "fema_sfha");
    ("distress_score", Param "distress_score");
    ("distress_flags", Param "distress_flags");
    ("flag_veg", Param "flag_veg"); ("flag_flood", Param "flag_flood");
    ("flag_structural", Param "flag_structural");
    ("flag_neglect", Param "flag_neglect");
    ("veg_confidence", Param "veg_confidence");
    ("flood_confidence", Param "flood_confidence");
    ("scan_date", Param "scan_date"); ("scan_pass", Param "scan_pass");
    ("sentinel_worthy", Param "sentinel_worthy") ]%string.

Definition batch_update_scan_results (now : Z)
    (results : list (gmap string value)) (t : list (gmap string value)) : db_result :=
  chunked_update now scan_update_sql results t.

Definition slope_update_sql : update_stmt :=
  [ ("ndvi_slope_5yr", Param "ndvi_slope_5yr");
    ("ndvi_history_count", Param "ndvi_history_count");
    ("ndvi_history_years", Param "ndvi_history_years") ]%string.

Definition batch_update_slope_results (now : Z)
    (results : list (gmap string value)) (t : list (gmap string value)) : db_result :=
  chunked_update now slope_update_sql results t.

Definition sentinel_update_sql : update_stmt :=
  [ ("sentinel_trend_direction", Param "sentinel_trend_direction");
    ("sentinel_trend_slope", Param "sentinel_trend_slope");
    ("sentinel_latest_ndvi", Param "sentinel_latest_ndvi");
    ("sentinel_months_data", Param "sentinel_months_data");
    ("sentinel_mean_ndvi", Param "sentinel_mean_ndvi");
    ("sentinel_data_source", Param "sentinel_data_source");
    ("sentinel_chart_url", Param "sentinel_chart_url");
    ("sentinel_scan_date", Param "sentinel_scan_date");
    ("distress_score", Param "distress_score");
    ("distress_flags", Param "distress_flags");
    ("flag_veg", Param "flag_veg"); ("flag_flood", Param "flag_flood");
    ("flag_structural", Param "flag_structural");
    ("flag_neglect", Param "flag_neglect");
    ("veg_confidence", Param "veg_confidence");
    ("flood_confidence", Param "flood_confidence");
    ("scan_pass", GREATEST_COALESCE_0 "scan_pass" "scan_pass") ]%string.

Definition batch_update_sentinel_results (now : Z)
    (results : list (gmap string value)) (t : list (gmap string value)) : db_result :=
  chunked_update now sentinel_update_sql results t.

(** *** USPS results *)

Definition _USPS_TRANSIENT_ERRORS : list string :=
  ["rate_limited"; "http_500"; "http_502"; "http_503"; "http_504"]%string.

Inductive usps_kind := Success | Transient | Permanent.

(** The [if not err / elif err in _USPS_TRANSIENT_ERRORS / else] of the
    partition loop. *)
Definition usps_kind_of (r : gmap string value) : usps_kind :=
  let err := r !! "usps_error" in
  if negb (truthy err) then Success
  else match err with
       | Some (VStr e) =>
           if bool_decide (e ∈ _USPS_TRANSIENT_ERRORS) then Transient else Permanent
       | _ => Permanent
       end.

Definition is_kind (k : usps_kind) (r : gmap string value) : bool :=
  match k, usps_kind_of r with
  | Success, Success | Transient, Transient | Permanent, Permanent => true
  | _, _ => false
  end.

Definition usps_success_sql : update_stmt :=
  [ ("usps_vacant", Param "usps_vacant");
    ("usps_dpv_confirmed", Param "usps_dpv_confirmed");
    ("usps_address", Param "usps_address"); ("usps_city", Param "usps_city");
    ("usps_zip", Param "usps_zip"); ("usps_zip4", Param "usps_zip4");
    ("usps_business", Param "usps_business");
    ("usps_carrier_route", Param "usps_carrier_route");
    ("usps_address_mismatch", Param "usps_address_mismatch");
    ("usps_check_date", NOW); ("usps_error", NULL);
    ("flag_vacancy", Param "flag_vacancy");
    ("vacancy_confidence", Param "vacancy_confidence") ]%string.

Definition usps_transient_sql : update_stmt :=
  [ ("usps_error", Param "usps_error"); ("flag_vacancy", FALSE);
    ("vacancy_confidence", NULL) ]%string.

Definition usps_permanent_sql : update_stmt :=
  [ ("usps_error", Param "usps_error"); ("usps_check_date", NOW);
    ("flag_vacancy", FALSE); ("vacancy_confidence", NULL) ]%string.

(** One transaction: the three groups in turn, then the commit.  A raise
    anywhere leaves the table as it was. *)
Definition batch_update_usps_results (now : Z)
    (results : list (gmap string value)) (t : list (gmap string value)) : db_result :=
  let success_results := List.filter (is_kind Success) results in
  let transient_results := List.filter (is_kind Transient) results in
  let permanent_results := List.filter (is_kind Permanent) results in
  match execute_batch now usps_success_sql success_results t with
  | Some t1 =>
      match execute_batch now usps_transient_sql transient_results t1 with
      | Some t2 =>
          match execute_batch now usps_permanent_sql permanent_results t2 with
          | Some t3 =>
              {| committed := t3;
                 returned := Some (Z.of_nat (length success_results)
                                   + Z.of_nat (length transient_results)
                                   + Z.of_nat (length permanent_results))%Z |}
          | None => {| committed := t; returned := None |}
          end
      | None => {| committed := t; returned := None |}
      end
  | None => {| committed := t; returned := None |}
  end.

(** *** Reading the store *)

(** [COALESCE(scan_pass, 0)] of a row. *)
Definition scan_pass_level (cur : gmap string value) : Z :=
  match column cur "scan_pass" with VInt z => z | _ => 0 end.

(** The right-hand side a statement assigns to a column: the last
    assignment that names it. *)
Fixpoint assigned (c : string) (stmt : update_stmt) : option sql_expr :=
  match stmt with
  | [] => None
  | (c', e) :: rest =>
      match assigned c rest with
      | Some e' => Some e'
      | None => if String.eqb c' c then Some e else None
      end
  end.

(** The columns a statement's [SET] clause names. *)
Definition set_clause (stmt : update_stmt) : list string := map fst stmt.

(** A row after an update agrees with the row before it outside [cols]. *)
Definition keeps (cols : list string) (old new : gmap string value) : Prop :=
  forall c, c ∉ cols -> new !! c = old !! c.

(** The columns the three USPS statements write between them. *)
Definition usps_columns : list string := set_clause usps_success_sql.

(** Some dictionary of the batch names the row in its [WHERE] clause. *)
Definition hits (args : list (gmap string value)) (cur : gmap string value) : Prop :=
  exists r, In r args /\ where_matches r cur = true.

(** The two states the USPS statements leave a row in. *)
Definition usps_error_set (cur : gmap string value) : Prop :=
  column cur "usps_error" <> VNull.

Definition usps_checked_at (now : Z) (cur : gmap string value) : Prop :=
  column cur "usps_check_date" = VTime now /\ column cur "usps_error" = VNull.

(** The retry condition in the [WHERE] clause of
    [get_parcels_needing_usps]:
    [usps_check_date IS NULL OR usps_check_date < NOW() - interval
     OR usps_error IS NOT NULL], with the interval in the unit of the
    clock.  [usps_check_date] is a timestamp column. *)
Definition usps_retry_due (now interval : Z) (cur : gmap string value) : bool :=
  match column cur "usps_check_date" with
  | VNull => true
  | VTime t => (t <? now - interval)%Z
  | _ => false
  end
  || match column cur "usps_error" with VNull => false | _ => true end.

(** A row before and after a USPS update made at [now], as the next
    selection sees it: named by an errored result, it is due at any time;
    named by successful results only, it is due once the check is older
    than the interval; named by none, it is unchanged. *)
Definition usps_row_outcome (now : Z) (results : list (gmap string value))
    (old new : gmap string value) : Prop :=
  let hit k := hits (List.filter (is_kind k) results) old in
  (hit Transient \/ hit Permanent ->
     forall now' interval, usps_retry_due now' interval new = true) /\
  (hit Success -> ~ hit Transient -> ~ hit Permanent ->
     forall now' interval,
       usps_retry_due now' interval new = (now <? now' - interval)%Z) /\
  (~ hit Success -> ~ hit Transient -> ~ hit Permanent -> new = old).

(** *** Sample rows *)

Definition usps_timeout_result : gmap string value :=
  list_to_map
    [ ("parcel_id", VStr "P1"); ("county", VStr "CtyA");
      ("usps_vacant", VNull); ("usps_dpv_confirmed", VNull);
      ("usps_address", VNull); ("usps_city", VNull); ("usps_zip", VNull);
      ("usps_zip4", VNull); ("usps_business", VNull);
      ("usps_carrier_route", VNull); ("usps_address_mismatch", VBool false);
      ("usps_error",
       VStr "HTTPSConnectionPool(host='apis.usps.com', port=443): Read timed out. (read timeout=30)");
      ("flag_vacancy", VBool false); ("vacancy_confidence", VNum 0) ]%string.

Definition usps_rate_limited_result : gmap string value :=
  <["usps_error" := VStr "rate_limited"]> usps_timeout_result.

Definition usps_vacant_result : gmap string value :=
  list_to_map
    [ ("parcel_id", VStr "P1"); ("county", VStr "CtyA");
      ("usps_vacant", VBool true); ("usps_dpv_confirmed", VBool true);
      ("usps_address", VStr "123 MAIN ST"); ("usps_city", VStr "CHARLOTTE");
      ("usps_zip", VStr "28083"); ("usps_zip4", VStr "1234");
      ("usps_business", VBool false); ("usps_carrier_route", VStr "C001");
      ("usps_address_mismatch", VBool false); ("usps_error", VNull);
      ("flag_vacancy", VBool true); ("vacancy_confidence", VNum (9 # 10)) ]%string.


Definition parcel_P1 (scan_pass : value) : gmap string value :=
  {[ "parcel_id" := VStr "P1"; "county" := VStr "CtyA"; "scan_pass" := scan_pass ]}%string.

Definition pass1_result : gmap string value :=
  list_to_map
    [ ("parcel_id", VStr "P1"); ("county", VStr "CtyA");
      ("ndvi_score", VNum (23 # 100)); ("ndvi_date", VStr "2022-06-15");
      ("ndvi_category", VStr "minimal"); ("fema_zone", VStr "X");
      ("fema_risk", VStr "low"); ("fema_sfha", VBool false);
      ("distress_score", VNum (83 # 100));
      ("distress_flags", VStr "vegetation_neglect");
      ("flag_veg", VBool false); ("flag_flood", VBool false);
      ("flag_structural", VBool false); ("flag_neglect", VBool true);
      ("veg_confidence", VNum (55 # 100)); ("flood_confidence", VNull);
      ("scan_date", VStr "2024-01-01 00:00:00"); ("scan_pass", VInt 1);
      ("sentinel_worthy", VBool true) ]%string.

End Db.

(** ** src/analysis/flags.py: the other evaluators, and the Pass 1 score
       of scripts/batch_ndvi_scan.py *)
Module Evaluators.

Import Db.
Local Open Scope Q_scope.

Definition NDVI_NEGLECT_MIN : Q := 10 # 100.
Definition NDVI_NEGLECT_MAX : Q := 30 # 100.
Definition NDVI_DROP_THRESHOLD : Q := 20 # 100.
Definition FLOOD_HIGH_CONFIDENCE : Q := 1.
Definition FLOOD_MODERATE_CONFIDENCE : Q := 6 # 10.

(** The fields of the [fema] and [usps] dictionaries the evaluators read.
    [risk_level] is [None] when the entry is missing ("unknown") or null;
    no test tells the two apart.  [is_sfha] is [None] when the entry is
    missing, which reads as [False]. *)
Record fema := {
  fema_errors : bool;
  risk_level : option string;
  flood_zone : option string;
  is_sfha : option bool;
  zone_subtype : option string;
  map_url : option string
}.

Record usps := {
  vacant : option bool;
  dpv_confirmed : option bool;
  address_mismatch : bool;
  usps_address : option string;
  usps_city : option string;
  usps_zip : option string;
  carrier_route : option string
}.

(** The trend dictionary with the entry only the structural evaluator
    reads. *)
Record trend := {
  sentinel : Flags.sentinel;
  earliest_ndvi : option Q
}.

(** The dictionary every evaluator returns. *)
Record flag_dict := {
  flag : bool;
  confidence : Q;
  signal_code : string;
  evidence : gmap string value
}.

Definition no_flag (code : string) : flag_dict :=
  {| flag := false; confidence := 0; signal_code := code; evidence := ∅ |}.

Definition opt_str (o : option string) : value :=
  match o with Some s => VStr s | None => VNull end.
Definition opt_bool (o : option bool) : value :=
  match o with Some b => VBool b | None => VNull end.

Definition of_overgrowth (r : Flags.flag_result) : flag_dict :=
  {| flag := Flags.flag r; confidence := Flags.confidence r;
     signal_code := Flags.signal_code r;
     evidence := (fun v => match v with
                           | Flags.EvNum q => VNum q
                           | Flags.EvStr s => VStr s
                           end) <$> Flags.evidence r |}.

Definition risk_is (f : fema) (level : string) : bool :=
  match risk_level f with Some r => String.eqb r level | None => false end.

Definition evaluate_flood_risk (fema : option fema) : flag_dict :=
  match fema with
  | None => no_flag "flood_risk"
  | Some f =>
      if fema_errors f then no_flag "flood_risk"
      else
        let confidence :=
          if risk_is f "high" || Py.truthy_bool (is_sfha f) then Some FLOOD_HIGH_CONFIDENCE
          else if risk_is f "moderate" then Some FLOOD_MODERATE_CONFIDENCE
          else None in
        match confidence with
        | Some c =>
            let ev : gmap string value :=
              <["zone_subtype" := opt_str (zone_subtype f)]>
              (<["is_sfha" := match is_sfha f with Some b => VBool b | None => VBool false end]>
              (<["risk_level" := match risk_level f with
                                 | Some r => VStr r
                                 | None => VStr "unknown"
                                 end]>
              (<["flood_zone" := opt_str (flood_zone f)]> ∅))) in
            {| flag := true; confidence := c; signal_code := "flood_risk";
               evidence := if Py.truthy_str (map_url f)
                           then <["map_url" := opt_str (map_url f)]> ev else ev |}
        | None => no_flag "flood_risk"
        end
  end.

Definition evaluate_structural_change (naip : option Flags.naip) (tr : option trend)
    : flag_dict :=
  let '(naip_flag, naip_conf, ev1) :=
    match naip with
    | Some n =>
        if Flags.naip_errors n then (false, 0, (∅ : gmap string value))
        else
          match Flags.current_ndvi n, Flags.mean_historical_ndvi n with
          | Some current, Some hist_mean =>
              let drop := hist_mean - current in
              if Py.gtb drop NDVI_DROP_THRESHOLD then
                (true, Py.min (drop / (4 # 10)) 1,
                 <["naip_drop" := VNum (Py.round drop 4)]>
                 (<["naip_historical_mean" := VNum hist_mean]>
                 (<["naip_current_ndvi" := VNum current]> ∅)))
              else (false, 0, ∅)
          | _, _ => (false, 0, ∅)
          end
    | None => (false, 0, ∅)
    end in
  let '(sentinel_flag, sentinel_conf, ev2) :=
    match tr with
    | Some t =>
        let s := sentinel t in
        if Flags.sentinel_errors s then (false, 0, ev1)
        else
          match Flags.trend_direction s, Flags.trend_slope s with
          | Some direction, Some slope =>
              if String.eqb direction "decreasing" then
                match earliest_ndvi t, Flags.latest_ndvi s with
                | Some earliest, Some latest =>
                    if negb (Py.eqb earliest 0) && negb (Py.eqb latest 0)
                       && Py.gtb (earliest - latest) NDVI_DROP_THRESHOLD
                    then
                      (true, Py.min (Qabs slope / (2 # 100)) 1,
                       <["sentinel_latest_ndvi" := VNum latest]>
                       (<["sentinel_drop" := VNum (Py.round (earliest - latest) 4)]>
                       (<["sentinel_slope" := VNum slope]> ev1)))
                    else (false, 0, ev1)
                | _, _ => (false, 0, ev1)
                end
              else (false, 0, ev1)
          | _, _ => (false, 0, ev1)
          end
    | None => (false, 0, ev1)
    end in
  if naip_flag && sentinel_flag then
    {| flag := true;
       confidence := Py.min (Py.max naip_conf sentinel_conf + (2 # 10)) 1;
       signal_code := "structural_change";
       evidence := <["agreement" := VStr "naip_and_sentinel"]> ev2 |}
  else if naip_flag then
    {| flag := true; confidence := naip_conf * (8 # 10);
       signal_code := "structural_change";
       evidence := <["source" := VStr "naip_only"]> ev2 |}
  else if sentinel_flag then
    {| flag := true; confidence := sentinel_conf * (7 # 10);
       signal_code := "structural_change";
       evidence := <["source" := VStr "sentinel_only"]> ev2 |}
  else
    {| flag := false; confidence := 0; signal_code := "structural_change";
       evidence := ev2 |}.

Definition evaluate_vegetation_neglect (naip : option Flags.naip) (fema : option fema)
    : flag_dict :=
  match naip with
  | None => no_flag "vegetation_neglect"
  | Some n =>
      if Flags.naip_errors n then no_flag "vegetation_neglect"
      else
        match Flags.current_ndvi n with
        | None => no_flag "vegetation_neglect"
        | Some current =>
            if Py.leb NDVI_NEGLECT_MIN current && Py.leb current NDVI_NEGLECT_MAX then
              let confidence :=
                Py.round (1 - ((current - NDVI_NEGLECT_MIN)
                               / (NDVI_NEGLECT_MAX - NDVI_NEGLECT_MIN)) * (7 # 10)) 2 in
              let ev : gmap string value :=
                <["category" := VStr "neglect"]>
                (<["naip_current_ndvi" := VNum current]> ∅) in
              match fema with
              | Some f =>
                  if negb (fema_errors f) && (risk_is f "high" || risk_is f "moderate")
                  then
                    {| flag := true;
                       confidence := Py.min (confidence + (15 # 100)) 1;
                       signal_code := "vegetation_neglect";
                       evidence := <["flood_risk" := opt_str (risk_level f)]>
                                   (<["flood_boost" := VBool true]> ev) |}
                  else
                    {| flag := true; confidence := confidence;
                       signal_code := "vegetation_neglect"; evidence := ev |}
              | None =>
                  {| flag := true; confidence := confidence;
                     signal_code := "vegetation_neglect"; evidence := ev |}
              end
            else no_flag "vegetation_neglect"
        end
  end.

Definition evaluate_usps_vacancy (usps : option usps) : flag_dict :=
  match usps with
  | None => no_flag "usps_vacancy"
  | Some u =>
      match vacant u with
      | Some true =>
          let confidence :=
            match dpv_confirmed u with
            | Some true => 90 # 100
            | Some false | None => 75 # 100
            end in
          let confidence :=
            if address_mismatch u then Py.min confidence (70 # 100) else confidence in
          {| flag := true; confidence := confidence; signal_code := "usps_vacancy";
             evidence :=
               list_to_map
                 [ ("source"%string, VStr "usps_address_api_v3");
                   ("vacant"%string, VBool true);
                   ("dpv_confirmed"%string, opt_bool (dpv_confirmed u));
                   ("address_mismatch"%string, VBool (address_mismatch u));
                   ("usps_address"%string, opt_str (usps_address u));
                   ("usps_city"%string, opt_str (usps_city u));
                   ("usps_zip"%string, opt_str (usps_zip u));
                   ("carrier_route"%string, opt_str (carrier_route u)) ] |}
      | _ => no_flag "usps_vacancy"
      end
  end.

Definition generate_all_flags (naip : option Flags.naip) (tr : option trend)
    (fema : option fema) (usps : option usps) : list flag_dict :=
  let evaluators :=
    [ of_overgrowth (Flags.evaluate_vegetation_overgrowth naip (sentinel <$> tr));
      evaluate_vegetation_neglect naip fema;
      evaluate_flood_risk fema;
      evaluate_structural_change naip tr;
      evaluate_usps_vacancy usps ] in
  List.filter (fun f => flag f) evaluators.

(** *** scripts/batch_ndvi_scan.py *)

Definition SIGNAL_WEIGHTS : list (string * Q) :=
  [ ("vegetation_overgrowth"%string, 2); ("vegetation_neglect"%string, 15 # 10);
    ("flood_risk"%string, 15 # 10); ("structural_change"%string, 25 # 10) ].

(** [SIGNAL_WEIGHTS.get(code, 1.0)] *)
Definition weight_of (code : string) : Q :=
  match List.find (fun kw => String.eqb kw.1 code) SIGNAL_WEIGHTS with
  | Some kw => kw.2
  | None => 1
  end.

(** The loop [score += weight * flag["confidence"]], then
    [round(min(score, 10.0), 2)]. *)
Definition distress_score (flags : list flag_dict) : Q :=
  Py.round
    (Py.min (fold_left (fun score f => score + weight_of (signal_code f) * confidence f)
                       flags 0) 10) 2.

(** What [naip_ndvi_fast] returned. *)
Record naip_fast := {
  ndvi : option Q;
  date : option string;
  category : string;
  error : option string
}.

(** The part of [scan_single_parcel] after the two lookups: the flags, the
    score and [sentinel_worthy] of a parcel. *)
Record scan := {
  scan_flags : list flag_dict;
  scan_score : Q;
  sentinel_worthy : bool
}.

Definition naip_for_flags (naip : naip_fast) : option Flags.naip :=
  match ndvi naip with
  | Some v =>
      Some {| Flags.naip_errors := Py.truthy_str (error naip);
              Flags.current_ndvi := Some v;
              Flags.mean_historical_ndvi := None |}
  | None => None
  end.

Definition scan_single_parcel (naip : naip_fast) (fema : option fema) : scan :=
  let flags := generate_all_flags (naip_for_flags naip) None fema None in
  {| scan_flags := flags;
     scan_score := distress_score flags;
     sentinel_worthy :=
       (match ndvi naip with Some v => Py.gtb v (50 # 100) | None => false end)
       || (match flags with [] => false | _ :: _ => true end) |}.

End Evaluators.

(** ** src/naip/planetary.py: reading NDVI from a COG window *)
Module Planetary.

Local Open Scope Q_scope.

(** An opened raster: its size and its bands, each a list of rows of
    pixel values. *)
Record cog := {
  height : Z;
  width : Z;
  bands : list (list (list Z))
}.

(** What the library calls in the [try] block did: one of them
    ([rasterio.open], the transformer, [src.index], [src.read]) raised an
    exception with this text, or the raster was opened and the point
    fell on pixel [(row, col)]. *)
Inductive cog_access :=
| AccessRaised (msg : string)
| Located (src : cog) (row col : Z).

Record ndvi_reading := {
  ndvi : option Q;
  red : option Q;
  nir : option Q;
  error : option string
}.

Definition failed (msg : string) : ndvi_reading :=
  {| ndvi := None; red := None; nir := None; error := Some msg |}.

(** [src.read(window=Window(c_start, r_start, w, h))]: for every band the
    rows and columns of the window. *)
Definition read_window (src : cog) (c_start r_start w h : Z)
    : list (list (list Z)) :=
  map (fun band =>
         map (fun row => take (Z.to_nat w) (drop (Z.to_nat c_start) row))
             (take (Z.to_nat h) (drop (Z.to_nat r_start) band)))
      (bands src).

(** [bands[i].astype(np.float64)], flattened row by row. *)
Definition band_values (window : list (list (list Z))) (i : nat) : list Q :=
  map inject_Z (concat (nth i window [])).

(** [a.mean()] *)
Definition mean (l : list Q) : Q :=
  Baseline.sumQ l / inject_Z (Z.of_nat (length l)).

(** [a[mask]] *)
Fixpoint select {A} (mask : list bool) (l : list A) : list A :=
  match mask, l with
  | m :: mask', x :: l' => if m then x :: select mask' l' else select mask' l'
  | _, _ => []
  end.

(** [str(n)] for a count. *)
Definition str_of_nat (n : nat) : string :=
  DecimalString.NilZero.string_of_uint (Nat.to_uint n).

Definition read_ndvi_from_cog (access : cog_access) (window_size : Z) : ndvi_reading :=
  let half := (window_size / 2)%Z in
  match access with
  | AccessRaised msg => failed msg
  | Located src row col =>
      let r_start := Z.max 0 (row - half) in
      let c_start := Z.max 0 (col - half) in
      let r_end := Z.min (height src) (row + half + 1) in
      let c_end := Z.min (width src) (col + half + 1) in
      if (r_end <=? r_start)%Z || (c_end <=? c_start)%Z then
        failed "pixel_out_of_bounds"
      else
        let window :=
          read_window src c_start r_start (c_end - c_start) (r_end - r_start) in
        if (length window <? 4)%nat then
          failed ("insufficient_bands: " ++ str_of_nat (length window))
        else
          let red := band_values window 0 in
          let nir := band_values window 3 in
          let denom := zip_with Qplus nir red in
          let valid := map (fun d => Py.gtb d 0) denom in
          if negb (existsb (fun v => v) valid) then
            {| ndvi := Some 0; red := Some (mean red); nir := Some (mean nir);
               error := None |}
          else
            let ndvi_pixels :=
              zip_with (fun v nr => if v : bool then (nr.1 - nr.2) / (nr.1 + nr.2) else 0)
                       valid (zip nir red) in
            let ndvi := mean (select valid ndvi_pixels) in
            {| ndvi := Some (Py.round ndvi 4); red := Some (mean red);
               nir := Some (mean nir); error := None |}
  end.

(** *** The window in the words of the design document *)



(** The set where NIR+R > 0, and the mean of the per-pixel NDVI over it. *)
Definition valid_pixels (pixels : list (Q * Q)) : list (Q * Q) :=
  List.filter (fun p => Py.gtb (p.1 + p.2) 0) pixels.


(** *** Sample rasters *)

Definition flat_band (v : Z) : list (list Z) :=
  [[v; v; v]; [v; v; v]; [v; v; v]].

Definition nodata_cog : cog :=
  {| height := 3; width := 3;
     bands := [flat_band 0; flat_band 0; flat_band 0; flat_band 0] |}.

Definition green_cog : cog :=
  {| height := 3; width := 3;
     bands := [ [[50; 0; 60]; [0; 40; 0]; [50; 50; 0]]%Z; flat_band 90; flat_band 80;
                [[100; 0; 140]; [0; 160; 0]; [150; 150; 0]]%Z ] |}.

Definition rgb_cog : cog :=
  {| height := 3; width := 3;
     bands := [flat_band 50; flat_band 90; flat_band 80] |}.

(** No pixel value of the raster is negative. *)
Definition nonneg_pixels (src : cog) : Prop :=
  Forall (Forall (Forall (fun v => (0 <= v)%Z))) (bands src).

(** *** Searching the catalogue *)



Record item := {
  year : Z;
  date : string;
  cog_url : string
}.







(** *** Reading the history *)

(** A per-year cache entry or result: [{"year", "ndvi", "date"}]. *)
Record entry := {
  e_year : Z;
  e_ndvi : option Q;
  e_date : string
}.

(** The loop of [get_historical_ndvi] over the items found: the results
    and the cache entries written, in order.  [cache] is [_get_cached]
    on the key of a year, [read] the COG read of an item. *)
Fixpoint historical_loop (cache : Z -> option entry) (read : item -> ndvi_reading)
    (items : list item) : list entry * list (Z * entry) :=
  match items with
  | [] => ([], [])
  | it :: rest =>
      let '(results, writes) := historical_loop cache read rest in
      match cache (year it) with
      | Some c =>
          match e_ndvi c with
          | Some _ => (c :: results, writes)
          | None =>
              match ndvi (read it) with
              | Some v =>
                  let e := {| e_year := year it; e_ndvi := Some v; e_date := date it |} in
                  (e :: results, (year it, e) :: writes)
              | None =>
                  (results,
                   (year it, {| e_year := year it; e_ndvi := None; e_date := date it |})
                     :: writes)
              end
          end
      | None =>
          match ndvi (read it) with
          | Some v =>
              let e := {| e_year := year it; e_ndvi := Some v; e_date := date it |} in
              (e :: results, (year it, e) :: writes)
          | None =>
              (results,
               (year it, {| e_year := year it; e_ndvi := None; e_date := date it |})
                 :: writes)
          end
      end
  end.

Definition get_historical_ndvi (cache : Z -> option entry) (read : item -> ndvi_reading)
    (items : list item) : list entry :=
  (historical_loop cache read items).1.

(** The cache without its entries for missed reads. *)
Definition forget_misses (cache : Z -> option entry) (y : Z) : option entry :=
  match cache y with
  | Some c => if e_ndvi c is Some _ then Some c else None
  | None => None
  end.

(** *** A sample answer of the catalogue *)



End Planetary.

(** ** scripts/batch_historical_slope.py: the slope of one parcel *)
Module SlopeParcel.

Import Baseline Planetary.
Local Open Scope Q_scope.







(** *** A sample history *)




End SlopeParcel.

(** ** scripts/batch_usps_enrich.py: the local journal, its replay, and
       the flush of the results buffer *)
Module UspsFlush.

Import Db.
Local Open Scope string_scope.

Definition newline : ascii := "010"%char.
Definition carriage_return : ascii := "013"%char.

(** Iterating over a file opened in text mode: the lines, each with its
    terminator; ["\r"] and ["\r\n"] end a line too and read as ["\n"]. *)
Fixpoint lines_from (cur : string) (s : string) : list string :=
  match s with
  | EmptyString => if String.eqb cur "" then [] else [cur]
  | String c rest =>
      if Ascii.eqb c newline then
        (cur ++ String newline "") :: lines_from "" rest
      else if Ascii.eqb c carriage_return then
        match rest with
        | String c' rest' =>
            if Ascii.eqb c' newline
            then (cur ++ String newline "") :: lines_from "" rest'
            else (cur ++ String newline "") :: lines_from "" rest
        | EmptyString => [cur ++ String newline ""]
        end
      else lines_from (cur ++ String c "") rest
  end.

Definition readlines (file : string) : list string := lines_from "" file.

(** [{k: v for k, v in r.items() if not k.startswith("_")}] *)
Definition strip_internal (r : gmap string value) : gmap string value :=
  filter (fun kv => String.prefix "_" kv.1 = false) r.

(** The pass as the flush sees it: the shared results buffer, the journal
    file of the day ([None] while it does not exist), the parcel table and
    the flushed counter. *)
Record pass_state := {
  results_buffer : list (gmap string value);
  journal : option string;
  table : list (gmap string value);
  stats_flushed : Z
}.

Record flush_result := {
  after : pass_state;
  raised : bool       (* the call ended in an exception *)
}.

Inductive replay_outcome :=
| BackupNotFound
| NoRecords
| DecodeError              (* [json.loads] raised; nothing was written *)
| ReplayFailed             (* the store raised; "Replay failed" *)
| Replayed (updated : Z).  (* written, and the journal renamed *)

Record replay_result := {
  outcome : replay_outcome;
  table_after : list (gmap string value)
}.

Section Codec.

(** The JSON library and [datetime.isoformat]. *)
Variable dumps : gmap string value -> string.
Variable loads : string -> option (gmap string value).
Variable isoformat : Z -> string.

(** [{k: (v.isoformat() if isinstance(v, datetime) else v) ...}] *)
Definition safe (row : gmap string value) : gmap string value :=
  (fun v => match v with VTime t => VStr (isoformat t) | _ => v end) <$> row.

(** [_save_local_backup]: one line per row appended to the file. *)
Definition _save_local_backup (file : string)
    (db_batch : list (gmap string value)) : string :=
  fold_left (fun f row => f ++ dumps (safe row) ++ String newline "") db_batch file.

(** [[json.loads(line) for line in f if line.strip()]] *)
Fixpoint load_records (lines : list string) : option (list (gmap string value)) :=
  match lines with
  | [] => Some []
  | line :: rest =>
      if String.eqb (PyStr.strip line) "" then load_records rest
      else
        match loads line, load_records rest with
        | Some r, Some rs => Some (r :: rs)
        | _, _ => None
        end
  end.

(** [replay_backup]; [store_up] says whether [get_db_connection]
    succeeds. *)
Definition replay_backup (file : option string) (store_up : bool) (now : Z)
    (t : list (gmap string value)) : replay_result :=
  match file with
  | None => {| outcome := BackupNotFound; table_after := t |}
  | Some content =>
      match load_records (readlines content) with
      | None => {| outcome := DecodeError; table_after := t |}
      | Some [] => {| outcome := NoRecords; table_after := t |}
      | Some records =>
          if store_up then
            let res := batch_update_usps_results now records t in
            match returned res with
            | Some updated =>
                {| outcome := Replayed updated; table_after := committed res |}
            | None => {| outcome := ReplayFailed; table_after := committed res |}
            end
          else {| outcome := ReplayFailed; table_after := t |}
      end
  end.

(** [flush_buffer].  [store_up]: [get_db_connection] succeeds.
    [disk_ok]: the journal can be written.  [appended]: what the other
    consumers have appended to the buffer since it was drained. *)
Definition flush_buffer (dry_run store_up disk_ok : bool)
    (appended : list (gmap string value)) (now : Z) (st : pass_state)
    : flush_result :=
  match results_buffer st with
  | [] => {| after := st; raised := false |}
  | _ :: _ =>
      let batch := results_buffer st in
      if dry_run then
        {| after := {| results_buffer := appended; journal := journal st;
                       table := table st;
                       stats_flushed := stats_flushed st + Z.of_nat (length batch) |};
           raised := false |}
      else
        let db_batch := map strip_internal batch in
        let res := batch_update_usps_results now db_batch (table st) in
        match (if store_up then returned res else None) with
        | Some updated =>
            {| after := {| results_buffer := appended; journal := journal st;
                           table := committed res;
                           stats_flushed := stats_flushed st + updated |};
               raised := false |}
        | None =>
            (* except Exception: journal the batch, put it back *)
            if disk_ok then
              {| after := {| results_buffer := rev batch ++ appended;
                             journal :=
                               Some (_save_local_backup (default "" (journal st))
                                                        db_batch);
                             table := table st;
                             stats_flushed := stats_flushed st |};
                 raised := false |}
            else
              {| after := {| results_buffer := appended; journal := journal st;
                             table := table st;
                             stats_flushed := stats_flushed st |};
                 raised := true |}
        end
  end.


End Codec.

(** The store update of a flush raised: the store was unreachable, or the
    update itself raised. *)
Definition store_update_raised (store_up : bool) (now : Z) (st : pass_state) : Prop :=
  store_up = false \/
  returned (batch_update_usps_results now (map strip_internal (results_buffer st))
                                      (table st)) = None.

End UspsFlush.

(** ** scripts/batch_historical_slope.py: the flush of the results buffer *)
Module SlopeFlush.

Import Db.

Record pass_state := {
  results_buffer : list (option (gmap string value));
  table : list (gmap string value);
  stats_flushed : Z
}.

Record flush_result := {
  after : pass_state;
  raised : bool
}.

(** [[r for r in batch if r is not None]] *)
Definition valid_results (batch : list (option (gmap string value)))
    : list (gmap string value) :=
  omap (fun r => r) batch.

Definition flush_buffer (dry_run store_up : bool)
    (appended : list (option (gmap string value))) (now : Z) (st : pass_state)
    : flush_result :=
  match results_buffer st with
  | [] => {| after := st; raised := false |}
  | _ :: _ =>
      let batch := results_buffer st in
      if dry_run then
        (* r['ndvi_slope_5yr'] on a [None] entry raises TypeError *)
        if forallb (fun r => bool_decide (is_Some r)) batch then
          {| after := {| results_buffer := appended; table := table st;
                         stats_flushed := stats_flushed st + Z.of_nat (length batch) |};
             raised := false |}
        else
          {| after := {| results_buffer := appended; table := table st;
                         stats_flushed := stats_flushed st |};
             raised := true |}
      else
        match valid_results batch with
        | [] =>
            {| after := {| results_buffer := appended; table := table st;
                           stats_flushed := stats_flushed st |};
               raised := false |}
        | _ :: _ =>
            let valid := valid_results batch in
            if store_up then
              let res := batch_update_slope_results now valid (table st) in
              match returned res with
              | Some updated =>
                  {| after := {| results_buffer := appended; table := committed res;
                                 stats_flushed := stats_flushed st + updated |};
                     raised := false |}
              | None =>
                  {| after := {| results_buffer := rev (map Some valid) ++ appended;
                                 table := committed res;
                                 stats_flushed := stats_flushed st |};
                     raised := false |}
              end
            else
              {| after := {| results_buffer := rev (map Some valid) ++ appended;
                             table := table st;
                             stats_flushed := stats_flushed st |};
                 raised := false |}
        end
  end.

Definition store_update_raised (store_up : bool) (now : Z) (st : pass_state) : Prop :=
  valid_results (results_buffer st) ≠ [] /\
  (store_up = false \/
   returned (batch_update_slope_results now (valid_results (results_buffer st))
                                        (table st)) = None).

End SlopeFlush.

(** ** A reference codec for journal lines

    A printer and a parser for the flat JSON objects the journal holds
    (string keys; null, boolean, integer, decimal and string values), used
    to run the journal on sample rows. *)
Module JsonLines.

Import Db.
Local Open Scope string_scope.

Definition dquote : ascii := "034"%char.
Definition backslash : ascii := "092"%char.

Fixpoint escape (s : string) : string :=
  match s with
  | EmptyString => EmptyString
  | String c rest =>
      if Ascii.eqb c dquote || Ascii.eqb c backslash
      then String backslash (String c (escape rest))
      else String c (escape rest)
  end.

Definition quote (s : string) : string :=
  String dquote (escape s ++ String dquote "").

Definition print_N (n : N) : string := NilZero.string_of_uint (N.to_uint n).

Definition print_Z (z : Z) : string :=
  (if (z <? 0)%Z then "-" else "") ++ print_N (Z.to_N (Z.abs z)).

Fixpoint zeros (n : nat) : string :=
  match n with O => "" | S n' => String "0" (zeros n') end.

(** The least [k] from [k0] on with [d] dividing [10^k]. *)
Fixpoint decimals_for (fuel k0 : nat) (d : Z) : option nat :=
  match fuel with
  | O => None
  | S fuel' =>
      if ((10 ^ Z.of_nat k0) mod d =? 0)%Z then Some k0
      else decimals_for fuel' (S k0) d
  end.

(** A rational with a finite decimal expansion, printed like a float. *)
Definition print_num (q : Q) : string :=
  let q := Qred q in
  let d := Zpos (Qden q) in
  match decimals_for 30 1 d with
  | Some k =>
      let scale := (10 ^ Z.of_nat k)%Z in
      let m := (Z.abs (Qnum q) * (scale / d))%Z in
      let frac := print_N (Z.to_N (m mod scale)) in
      (if (Qnum q <? 0)%Z then "-" else "")
      ++ print_N (Z.to_N (m / scale)) ++ "."
      ++ zeros (k - String.length frac) ++ frac
  | None => "NaN"
  end.

Definition print_value (v : value) : string :=
  match v with
  | VNull => "null"
  | VBool true => "true"
  | VBool false => "false"
  | VInt z => print_Z z
  | VNum q => print_num q
  | VStr s => quote s
  | VTime _ => "NaN"
  end.

Definition dumps (row : gmap string value) : string :=
  "{" ++ PyStr.join ", "
           (map (fun kv => quote kv.1 ++ ": " ++ print_value kv.2) (map_to_list row))
      ++ "}".

(** After an opening quote: the string and what follows its closing
    quote. *)
Fixpoint parse_string_body (s : string) : option (string * string) :=
  match s with
  | EmptyString => None
  | String c rest =>
      if Ascii.eqb c dquote then Some ("", rest)
      else if Ascii.eqb c backslash then
        match rest with
        | String c' rest' =>
            match parse_string_body rest' with
            | Some (body, after) => Some (String c' body, after)
            | None => None
            end
        | EmptyString => None
        end
      else
        match parse_string_body rest with
        | Some (body, after) => Some (String c body, after)
        | None => None
        end
  end.

(** The characters up to the next comma or closing brace. *)
Fixpoint take_scalar (s : string) : string * string :=
  match s with
  | EmptyString => ("", "")
  | String c rest =>
      if Ascii.eqb c "," || Ascii.eqb c "}" then ("", s)
      else let '(tok, after) := take_scalar rest in (String c tok, after)
  end.

Fixpoint split_dot (s : string) : string * option string :=
  match s with
  | EmptyString => ("", None)
  | String c rest =>
      if Ascii.eqb c "." then ("", Some rest)
      else let '(a, b) := split_dot rest in (String c a, b)
  end.

Definition parse_number (tok : string) : option value :=
  let '(neg, body) :=
    match tok with
    | String "-" rest => (true, rest)
    | _ => (false, tok)
    end in
  let sign := if neg : bool then (-1)%Z else 1%Z in
  match split_dot body with
  | (int_part, None) =>
      match NilZero.uint_of_string int_part with
      | Some u => Some (VInt (sign * Z.of_N (N.of_uint u)))
      | None => None
      end
  | (int_part, Some frac_part) =>
      match NilZero.uint_of_string int_part, NilZero.uint_of_string frac_part with
      | Some u, Some f =>
          let scale := (10 ^ Z.of_nat (String.length frac_part))%Z in
          let m := (Z.of_N (N.of_uint u) * scale + Z.of_N (N.of_uint f))%Z in
          Some (VNum (Qred (Qmake (sign * m) (Z.to_pos scale))))
      | _, _ => None
      end
  end.

Definition parse_value (s : string) : option (value * string) :=
  match s with
  | String c rest =>
      if Ascii.eqb c dquote then
        match parse_string_body rest with
        | Some (body, after) => Some (VStr body, after)
        | None => None
        end
      else
        let '(tok, after) := take_scalar s in
        if String.eqb tok "null" then Some (VNull, after)
        else if String.eqb tok "true" then Some (VBool true, after)
        else if String.eqb tok "false" then Some (VBool false, after)
        else match parse_number tok with
             | Some v => Some (v, after)
             | None => None
             end
  | EmptyString => None
  end.

Fixpoint parse_members (fuel : nat) (s : string) (acc : list (string * value))
    : option (list (string * value)) :=
  match fuel with
  | O => None
  | S fuel' =>
      match s with
      | String q rest =>
          if Ascii.eqb q dquote then
            match parse_string_body rest with
            | Some (key, String ":" (String " " after_colon)) =>
                match parse_value after_colon with
                | Some (v, String "," (String " " more)) =>
                    parse_members fuel' more ((key, v) :: acc)
                | Some (v, String "}" trailing) =>
                    if PyStr.all_chars PyStr.is_space trailing
                    then Some (rev ((key, v) :: acc)) else None
                | _ => None
                end
            | _ => None
            end
          else None
      | EmptyString => None
      end
  end.

Definition loads (s : string) : option (gmap string value) :=
  match s with
  | String "{" (String "}" trailing) =>
      if PyStr.all_chars PyStr.is_space trailing then Some ∅ else None
  | String "{" rest =>
      match parse_members (String.length s) rest [] with
      | Some members => Some (list_to_map members)
      | None => None
      end
  | _ => None
  end.

Definition isoformat (t : Z) : string := print_Z t.

(** *** Sample batch *)

Definition sample_batch : list (gmap string value) :=
  [ <["_account" := VInt 1]> (<["_result" := VStr "VacancyResult(...)"]> usps_vacant_result);
    <["parcel_id" := VStr "P2"]> (<["_account" := VInt 3]> usps_rate_limited_result);
    <["parcel_id" := VStr "P3"]> usps_timeout_result ].

Definition sample_table : list (gmap string value) :=
  [ parcel_P1 (VInt 1);
    <["parcel_id" := VStr "P2"]> (parcel_P1 (VInt 1));
    <["parcel_id" := VStr "P3"]> (parcel_P1 (VInt 2)) ].

Definition sample_state : UspsFlush.pass_state :=
  {| UspsFlush.results_buffer := sample_batch; UspsFlush.journal := None;
     UspsFlush.table := sample_table; UspsFlush.stats_flushed := 0 |}.


End JsonLines.

(* ===================================================================== *)
(** * Part II: properties                                                  *)
(* ===================================================================== *)

Section ConvictionFacts.
Import Conviction.
Local Open Scope Q_scope.

Example conviction_ds_only :
  conviction_score (compute_conviction (Some 6) 0 (Some 0%Z) (Some false) None None)
  = Some 6.
Proof. vm_compute. reflexivity. Qed.

Example conviction_mc_vac :
  let r := compute_conviction None (42 # 10) (Some 3%Z) (Some true) (Some (9 # 10)) None in
  conviction_score r = Some (33 # 4) /\ components r = ["MC"; "VAC"]%string.
Proof. vm_compute. split; reflexivity. Qed.

(** C1, as stated, fails: a parcel with no DS and no MC whose vacancy bonus
    applies ([flag_vacancy] true, no [usps_error]) still gets a null
    conviction score, so "null iff DS missing, MC missing and no vacancy
    bonus" does not hold. *)
Lemma conviction_vacancy_only_is_null :
  let flag_vacancy := Some true in
  let usps_error : option string := None in
  let r := compute_conviction None 0 (Some 0%Z) flag_vacancy (Some (9 # 10)) usps_error in
  ~ (conviction_score r = None <->
     (@None Q = None /\ mc_missing (Some 0%Z) = true /\
      ~ (Py.truthy_bool flag_vacancy && negb (Py.truthy_str usps_error) = true))).
Proof.
  cbv zeta. intros [H _].
  assert (Hn : conviction_score
                 (compute_conviction None 0 (Some 0%Z) (Some true) (Some (9 # 10)) None)
               = None) by (vm_compute; reflexivity).
  destruct (H Hn) as (_ & _ & Hv). apply Hv. reflexivity.
Qed.

(** C1, amended: the conviction score is null exactly when the DS component
    is missing ([ds_composite] is null) and the MC component is missing
    ([mc_count] is null or 0), whether or not a vacancy bonus applies. *)
Theorem conviction_null_iff
    (ds_composite : option Q) (mc_raw : Q) (mc_count : option Z)
    (flag_vacancy : option bool) (vac_conf : option Q) (usps_error : option string) :
  conviction_score
    (compute_conviction ds_composite mc_raw mc_count flag_vacancy vac_conf usps_error)
    = None
  <-> ds_composite = None /\ (mc_count = None \/ mc_count = Some 0%Z).
Proof.
  assert (Hmc : mc_missing mc_count = true <-> (mc_count = None \/ mc_count = Some 0%Z)).
  { destruct mc_count as [c|]; simpl.
    - rewrite Z.eqb_eq. split; [intros ->; by right | intros [?| [= ->]]; done].
    - split; [by left | done]. }
  rewrite <- Hmc. unfold compute_conviction.
  destruct ds_composite as [ds|], (mc_missing mc_count); simpl;
    split; try done; intros [? ?]; done.
Qed.

End ConvictionFacts.

Section UspsConsumerFacts.
Import UspsConsumer.

Lemma pause_breaker_below (c : consumer) :
  (consecutive_errors (pause_breaker c) < 10)%nat.
Proof.
  unfold pause_breaker.
  destruct (10 <=? consecutive_errors c)%nat eqn:E; simpl.
  - lia.
  - apply Nat.leb_gt in E. exact E.
Qed.

Lemma pause_breaker_shutdown (c : consumer) :
  shutdown_event (pause_breaker c) = shutdown_event c.
Proof. unfold pause_breaker. by destruct (10 <=? _)%nat. Qed.

(** The abort test runs on the counter the pause test has just reset, so
    it never succeeds. *)
Lemma abort_after_pause (c : consumer) :
  abort_breaker (pause_breaker c) = (pause_breaker c, false).
Proof.
  unfold abort_breaker.
  pose proof (pause_breaker_below c) as Hlt.
  destruct (20 <=? consecutive_errors (pause_breaker c))%nat eqn:E; [|done].
  apply Nat.leb_le in E. lia.
Qed.

Lemma iterate_keeps_shutdown (c : consumer) (it : iteration) :
  shutdown_event (iterate c it).1 = shutdown_event c /\ (iterate c it).2 = false.
Proof.
  destruct it as [|err vac fl]; simpl; [done|].
  assert (Hc : shutdown_event (count_result err vac c) = shutdown_event c).
  { unfold count_result. by destruct (Py.truthy_str err). }
  destruct fl; simpl; rewrite ?abort_after_pause; simpl;
    rewrite ?pause_breaker_shutdown; done.
Qed.

(** No run of the consumer loop sets the shutdown flag, whatever the
    checks return: the 20-error abort is unreachable. *)
Lemma consumer_never_sets_shutdown (work : list iteration) (c : consumer) :
  shutdown_event (consumer_thread c work) = shutdown_event c.
Proof.
  revert c. induction work as [|it rest IH]; intros c; simpl; [done|].
  destruct (shutdown_event c) eqn:Hs; [done|].
  pose proof (iterate_keeps_shutdown c it) as [H1 H2].
  destruct (iterate c it) as [c' stop]; simpl in *. subst stop.
  rewrite IH, H1. exact Hs.
Qed.

(** C2: twenty checks in a row that each come back with an error.  The
    consumer pauses twice (at the 10th and at the 20th error) and the
    shutdown flag stays clear: the run is not aborted. *)
Theorem consumer_twenty_errors_no_abort :
  let c := consumer_thread initial
             (repeat (Checked (Some "http_400"%string) None NoFlush) 20) in
  shutdown_event c = false /\ slept c = 600%nat /\ consecutive_errors c = 0%nat
  /\ stats_errors c = 20%nat.
Proof. vm_compute. done. Qed.

(** Ten checks in a row that come back with an error: one pause of 300
    seconds, and the counter starts again from 0. *)
Example consumer_ten_errors_pause :
  let c := consumer_thread initial
             (repeat (Checked (Some "rate_limited"%string) None NoFlush) 10) in
  slept c = 300%nat /\ consecutive_errors c = 0%nat /\ shutdown_event c = false.
Proof. vm_compute. done. Qed.

(** Errors that arrive as exceptions are counted but not tested: after 25
    of them the counter stands at 25 with no pause and no abort. *)
Example consumer_exceptions_not_tested :
  let c := consumer_thread initial (repeat CheckRaised 25) in
  consecutive_errors c = 25%nat /\ slept c = 0%nat /\ shutdown_event c = false.
Proof. vm_compute. done. Qed.

End UspsConsumerFacts.

Section FlagsFacts.
Import Flags.
Local Open Scope Q_scope.

Lemma sentinel_check_keeps (s : option sentinel) (ev : gmap string evidence_value)
    (k v : string) :
  k ≠ "sentinel_latest_ndvi"%string -> k ≠ "sentinel_direction"%string ->
  k ≠ "sentinel_slope"%string ->
  ev_is (sentinel_check s ev).2 k v = ev_is ev k v.
Proof.
  intros H1 H2 H3. unfold sentinel_check.
  repeat (match goal with
          | |- context [match ?x with _ => _ end] => destruct x
          end; simpl; try done).
  unfold ev_is. by rewrite !lookup_insert_ne.
Qed.

Example overgrowth_with_history :
  confidence
    (evaluate_vegetation_overgrowth
       (Some {| naip_errors := false; current_ndvi := Some (7 # 10);
                mean_historical_ndvi := Some (4 # 10) |}) None)
  == 8 # 10.
Proof. vm_compute. done. Qed.

(** C6, as stated, fails: in the strong tier with no historical mean the
    evaluation fires from the aerial source alone with aerial confidence
    0.6, and the final confidence is 0.6, not 0.6 times 0.8. *)
Lemma overgrowth_no_history_not_discounted :
  let n := Some {| naip_errors := false; current_ndvi := Some (7 # 10);
                   mean_historical_ndvi := None |} in
  (naip_check n).1 = (true, 6 # 10) /\
  (sentinel_check None (naip_check n).2).1.1 = false /\
  flag (evaluate_vegetation_overgrowth n None) = true /\
  ~ (confidence (evaluate_vegetation_overgrowth n None) == (6 # 10) * (8 # 10)).
Proof. vm_compute. repeat split; congruence. Qed.

(** C6, amended: when the overgrowth evaluation fires from the aerial
    source alone, the final confidence is the aerial confidence times 0.8
    if a historical mean is present; in the strong tier with the historical
    mean missing it is the aerial confidence itself, 0.6, undiscounted. *)
Theorem overgrowth_aerial_only_confidence
    (n : naip) (s : option sentinel) (naip_conf : Q)
    (ev : gmap string evidence_value) :
  naip_check (Some n) = (true, naip_conf, ev) ->
  (sentinel_check s ev).1.1 = false ->
  flag (evaluate_vegetation_overgrowth (Some n) s) = true /\
  confidence (evaluate_vegetation_overgrowth (Some n) s) =
    match mean_historical_ndvi n with
    | Some _ => naip_conf * (8 # 10)
    | None => 6 # 10
    end.
Proof.
  intros Hn Hs. unfold evaluate_vegetation_overgrowth. rewrite Hn.
  pose proof (sentinel_check_keeps s ev "tier" "strong") as Ht.
  pose proof (sentinel_check_keeps s ev "note" "no_historical_baseline") as Hnote.
  destruct (sentinel_check s ev) as [[sf sc] ev2]; simpl in *. subst sf. simpl.
  split; [done|].
  rewrite Ht, Hnote by done. clear Ht Hnote.
  unfold naip_check in Hn.
  destruct (naip_errors n); [done|].
  destruct (current_ndvi n) as [current|]; [|done].
  destruct (Py.gtb current NDVI_OVERGROWTH_STRONG).
  - destruct (mean_historical_ndvi n) as [hm|].
    + destruct (Py.gtb current (hm + NDVI_OVERGROWTH_CHANGE)); [|done].
      injection Hn as <- <-. done.
    + injection Hn as <- <-. done.
  - destruct (Py.gtb current NDVI_OVERGROWTH_MODERATE); [|done].
    destruct (mean_historical_ndvi n) as [hm|]; [|done].
    destruct (Py.gtb current (hm + NDVI_OVERGROWTH_CHANGE)); [|done].
    injection Hn as <- <-. done.
Qed.

(** The amended C6 at a parcel with NDVI 0.7 against a historical mean of
    0.4 and no trend data. *)
Lemma overgrowth_aerial_only_confidence_witness :
  confidence
    (evaluate_vegetation_overgrowth
       (Some {| naip_errors := false; current_ndvi := Some (7 # 10);
                mean_historical_ndvi := Some (4 # 10) |}) None)
  = Py.min (((7 # 10) - (4 # 10)) / (3 # 10)) 1 * (8 # 10).
Proof.
  refine (proj2 (overgrowth_aerial_only_confidence
           {| naip_errors := false; current_ndvi := Some (7 # 10);
              mean_historical_ndvi := Some (4 # 10) |} None _ _ _ _)).
  - reflexivity.
  - reflexivity.
Defined.

End FlagsFacts.

Section PyFacts.
Local Open Scope Q_scope.

(** Rounding depends on the number only, not on the fraction that
    represents it. *)
Lemma round_proper (x y : Q) (n : nat) : x == y -> Py.round x n = Py.round y n.
Proof.
  intros Hxy. unfold Py.round.
  set (scale := (10 ^ Z.of_nat n)%Z).
  assert (Hy : x * inject_Z scale == y * inject_Z scale) by (by rewrite Hxy).
  assert (Hf : Qfloor (x * inject_Z scale) = Qfloor (y * inject_Z scale))
    by (by apply Qfloor_comp).
  rewrite <- Hf.
  set (f := Qfloor (x * inject_Z scale)).
  assert (Hr : x * inject_Z scale - inject_Z f == y * inject_Z scale - inject_Z f)
    by (by rewrite Hy).
  destruct (Qlt_le_dec (x * inject_Z scale - inject_Z f) (1 # 2)) as [H1|H1],
           (Qlt_le_dec (y * inject_Z scale - inject_Z f) (1 # 2)) as [H2|H2];
    try reflexivity; try (exfalso; lra).
  destruct (Qlt_le_dec (1 # 2) (x * inject_Z scale - inject_Z f)) as [H3|H3],
           (Qlt_le_dec (1 # 2) (y * inject_Z scale - inject_Z f)) as [H4|H4];
    try reflexivity; exfalso; lra.
Qed.

End PyFacts.

Section BaselineFacts.
Import Baseline.
Local Open Scope Q_scope.

Lemma fold_left_Qplus_Sigma {A} (f : A -> Q) (l : list A) (a : Q) :
  fold_left Qplus (map f l) a == a + Sigma f l.
Proof.
  revert a. induction l as [|p l IH]; intros a; simpl.
  - lra.
  - rewrite IH. lra.
Qed.

Lemma sumQ_Sigma {A} (f : A -> Q) (l : list A) : sumQ (map f l) == Sigma f l.
Proof. unfold sumQ. rewrite fold_left_Qplus_Sigma. lra. Qed.





Example slope_scenario :
  compute_ndvi_slope
    [(2014%Z, 30 # 100); (2016%Z, 33 # 100); (2018%Z, 38 # 100);
     (2020%Z, 45 # 100); (2022%Z, 50 # 100)]
  = Return (Some (13 # 500)).
Proof. vm_compute. reflexivity. Qed.

Example slope_same_year :
  compute_ndvi_slope [(2020%Z, 3 # 10); (2020%Z, 5 # 10)] = Return (Some 0).
Proof. vm_compute. reflexivity. Qed.


End BaselineFacts.


Section DbGeneralFacts.
Import Db.

Lemma set_columns_lookup (now : Z) (stmt : update_stmt)
    (params cur acc r : gmap string value) (c : string) :
  set_columns now stmt params cur acc = Some r ->
  r !! c = match assigned c stmt with
           | Some e => eval_expr now params cur e
           | None => acc !! c
           end.
Proof.
  revert acc. induction stmt as [|[c' e] rest IH]; intros acc H; simpl in *.
  - by injection H as ->.
  - destruct (eval_expr now params cur e) as [v|] eqn:Ev; [|done].
    rewrite (IH _ H). destruct (assigned c rest); [done|].
    destruct (String.eqb c' c) eqn:Ec.
    + apply String.eqb_eq in Ec. subst c'. by rewrite lookup_insert_eq.
    + apply String.eqb_neq in Ec. by rewrite lookup_insert_ne.
Qed.

Lemma set_columns_defined (now : Z) (stmt : update_stmt)
    (params cur acc r : gmap string value) (c : string) (e : sql_expr) :
  set_columns now stmt params cur acc = Some r ->
  assigned c stmt = Some e ->
  is_Some (eval_expr now params cur e).
Proof.
  revert acc. induction stmt as [|[c' e'] rest IH]; intros acc H Ha; simpl in *; [done|].
  destruct (eval_expr now params cur e') as [v|] eqn:Ev; [|done].
  destruct (assigned c rest) as [e2|] eqn:E2.
  - injection Ha as ->. eauto.
  - destruct (String.eqb c' c); [|done]. injection Ha as <-. rewrite Ev. eauto.
Qed.

(** The chunks of a batch are the batch: no row is dropped or repeated. *)
Lemma chunks_fuel_concat {A} (n fuel : nat) (l : list A) :
  (0 < n)%nat -> (length l <= fuel)%nat -> concat (chunks_fuel fuel n l) = l.
Proof.
  intros Hn. revert l. induction fuel as [|fuel IH]; intros l Hl.
  - destruct l; [done | simpl in Hl; lia].
  - destruct l as [|x l]; [done|].
    cbn [chunks_fuel concat]. rewrite IH.
    + apply take_drop.
    + rewrite length_drop. simpl in *. lia.
Qed.

Lemma chunks_concat {A} (l : list A) : concat (chunks 500 l) = l.
Proof. unfold chunks. apply chunks_fuel_concat; lia. Qed.

(** Lifting a relation between a row and its update to whole tables and
    whole batches. *)
Section Lift.
Variable R : gmap string value -> gmap string value -> Prop.
Variable now : Z.
Variable stmt : update_stmt.
Hypothesis R_refl : forall cur, R cur cur.
Hypothesis R_trans : forall a b c, R a b -> R b c -> R a c.
Hypothesis R_set :
  forall params cur cur',
    set_columns now stmt params cur cur = Some cur' -> R cur cur'.

Lemma update_rows_lift params t t' :
  update_rows now stmt params t = Some t' -> Forall2 R t t'.
Proof.
  revert t'. induction t as [|cur rest IH]; intros t' H; simpl in H.
  - injection H as <-. constructor.
  - destruct (where_matches params cur) eqn:Ew.
    + destruct (set_columns now stmt params cur cur) as [cur'|] eqn:Es; [|done].
      destruct (update_rows now stmt params rest) as [rest'|]; [|done].
      injection H as <-. constructor; eauto.
    + destruct (update_rows now stmt params rest) as [rest'|]; [|done].
      injection H as <-. constructor; eauto.
Qed.

Lemma Forall2_R_refl t : Forall2 R t t.
Proof. induction t; constructor; auto. Qed.

Lemma Forall2_R_trans t1 t2 t3 : Forall2 R t1 t2 -> Forall2 R t2 t3 -> Forall2 R t1 t3.
Proof.
  intros H12. revert t3. induction H12; intros t3 H23; inversion H23; subst;
    constructor; eauto.
Qed.

Lemma execute_batch_lift argslist t t' :
  execute_batch now stmt argslist t = Some t' -> Forall2 R t t'.
Proof.
  revert t. induction argslist as [|params rest IH]; intros t H; simpl in H.
  - injection H as <-. apply Forall2_R_refl.
  - destruct (execute now stmt params t) as [t1|] eqn:Ex; [|done].
    unfold execute in Ex. destruct (forallb _ _); [|done].
    eapply Forall2_R_trans; [eapply update_rows_lift; eauto | eauto].
Qed.

Lemma run_chunks_lift cs t : Forall2 R t (run_chunks now stmt cs t).1.
Proof.
  revert t. induction cs as [|c rest IH]; intros t; simpl.
  - apply Forall2_R_refl.
  - destruct (execute_batch now stmt c t) as [t1|] eqn:Ex; simpl.
    + eapply Forall2_R_trans; [eapply execute_batch_lift; eauto | apply IH].
    + apply Forall2_R_refl.
Qed.

Lemma chunked_update_lift results t :
  Forall2 R t (committed (chunked_update now stmt results t)).
Proof.
  unfold chunked_update. destruct results as [|r rs].
  - apply Forall2_R_refl.
  - pose proof (run_chunks_lift (chunks 500 (r :: rs)) t) as H.
    destruct (run_chunks now stmt (chunks 500 (r :: rs)) t) as [t' ok]. exact H.
Qed.
End Lift.

(** The sentinel update keeps [scan_pass] monotone: whatever the batch, no
    row's pass level decreases. *)
Lemma sentinel_update_monotone (now : Z) (results t : list (gmap string value)) :
  Forall2 (fun old new => scan_pass_level old <= scan_pass_level new) t
          (committed (batch_update_sentinel_results now results t)).
Proof.
  apply chunked_update_lift.
  - intros. lia.
  - intros. lia.
  - intros params cur cur' H.
    pose proof (set_columns_lookup _ _ _ _ _ _ "scan_pass" H) as Hl.
    pose proof (set_columns_defined _ _ _ _ _ _ "scan_pass" _ H eq_refl) as [v Hv].
    simpl in Hl, Hv. rewrite Hv in Hl.
    unfold scan_pass_level at 2. unfold column at 1. rewrite Hl. simpl.
    unfold scan_pass_level.
    destruct (column cur "scan_pass") eqn:Ec; try done;
      destruct (params !! "scan_pass"%string) as [[]|]; simpl in Hv; try done;
      injection Hv as <-; lia.
Qed.

(** C4: a parcel that has reached pass 2 is scanned again by pass 1.  The
    pass-1 update writes its own level over the stored one, so
    [scan_pass] drops from 2 to 1. *)
Theorem scan_update_lowers_scan_pass :
  let r := batch_update_scan_results 0 [pass1_result] [parcel_P1 (VInt 2)] in
  returned r = Some 1%Z /\
  map scan_pass_level [parcel_P1 (VInt 2)] = [2] /\
  map scan_pass_level (committed r) = [1].
Proof. vm_compute. done. Qed.

(** *** The three-way split of USPS results *)

Lemma usps_kind_transient (r : gmap string value) :
  usps_kind_of r = Transient <->
  exists e, r !! "usps_error"%string = Some (VStr e) /\ e ∈ _USPS_TRANSIENT_ERRORS.
Proof.
  unfold usps_kind_of. split.
  - destruct (r !! "usps_error"%string) as [[| | | |e|]|] eqn:E; simpl;
      try done; try (by destruct (negb _)).
    destruct (negb (negb (String.eqb e ""))); [done|].
    case_bool_decide; [eauto | done].
  - intros (e & -> & He). simpl.
    assert (Hne : String.eqb e "" = false).
    { apply String.eqb_neq. intros ->.
      assert (Hd : bool_decide (""%string ∈ _USPS_TRANSIENT_ERRORS) = false)
        by (vm_compute; reflexivity).
      apply bool_decide_eq_false in Hd. done. }
    rewrite Hne. simpl. by rewrite bool_decide_eq_true_2.
Qed.

(** What each of the three statements leaves in [usps_check_date] and
    [usps_error] of a row it updates. *)
Lemma usps_statement_effect (now : Z) (params cur cur' : gmap string value) :
  (set_columns now usps_success_sql params cur cur = Some cur' ->
     cur' !! "usps_check_date"%string = Some (VTime now) /\
     cur' !! "usps_error"%string = Some VNull) /\
  (set_columns now usps_transient_sql params cur cur = Some cur' ->
     cur' !! "usps_check_date"%string = cur !! "usps_check_date"%string /\
     cur' !! "usps_error"%string = params !! "usps_error"%string) /\
  (set_columns now usps_permanent_sql params cur cur = Some cur' ->
     cur' !! "usps_check_date"%string = Some (VTime now) /\
     cur' !! "usps_error"%string = params !! "usps_error"%string).
Proof.
  split; [|split]; intros Hs; split;
    match goal with
    | |- _ !! ?c = _ => rewrite (set_columns_lookup _ _ _ _ _ _ c Hs)
    end; reflexivity.
Qed.

Example usps_rate_limited_is_transient :
  usps_kind_of usps_rate_limited_result = Transient /\
  map (fun cur => (column cur "usps_check_date", column cur "usps_error"))
      (committed (batch_update_usps_results 1700000000 [usps_rate_limited_result]
                    [parcel_P1 (VInt 1)]))
  = [(VNull, VStr "rate_limited")].
Proof. vm_compute. done. Qed.

Example usps_success_sets_date :
  usps_kind_of usps_vacant_result = Success /\
  map (fun cur => (column cur "usps_check_date", column cur "usps_error"))
      (committed (batch_update_usps_results 1700000000 [usps_vacant_result]
                    [parcel_P1 (VInt 1)]))
  = [(VTime 1700000000, VNull)].
Proof. vm_compute. done. Qed.

(** C3: a check that failed with a network timeout carries the text of the
    exception as its error.  That text is not one of the five transient
    tags, so the row is classified permanent and [usps_check_date] is
    set, where the claim wants it transient with the date left unset. *)
Theorem usps_timeout_is_permanent :
  usps_kind_of usps_timeout_result = Permanent /\
  map (fun cur => (column cur "usps_check_date", column cur "usps_error"))
      (committed (batch_update_usps_results 1700000000 [usps_timeout_result]
                    [parcel_P1 (VInt 1)]))
  = [(VTime 1700000000,
      VStr "HTTPSConnectionPool(host='apis.usps.com', port=443): Read timed out. (read timeout=30)")].
Proof. vm_compute. done. Qed.

End DbGeneralFacts.

Section SitusFacts.
Import PyStr Situs.
Local Open Scope string_scope.

Example situs_street_city_state :
  split_situs "123 MAIN ST CHARLOTTE NC" (Some "NC") None
  = {| street := "123 MAIN ST"; city := Some "CHARLOTTE"; state := Some "NC";
       zip_code := None |}.
Proof. vm_compute. reflexivity. Qed.

Example situs_with_zip :
  split_situs "123 MAIN ST CHARLOTTE NC 28083" None None
  = {| street := "123 MAIN ST"; city := Some "CHARLOTTE"; state := Some "NC";
       zip_code := Some "28083" |}.
Proof. vm_compute. reflexivity. Qed.

Example situs_street_only :
  split_situs "123 MAIN ST" (Some "NC") (Some "GASTONIA")
  = {| street := "123 MAIN ST"; city := Some "GASTONIA"; state := Some "NC";
       zip_code := None |}.
Proof. vm_compute. reflexivity. Qed.

Example situs_uninc :
  split_situs "123 MAIN ST UNINC NC" (Some "NC") (Some "GASTONIA")
  = {| street := "123 MAIN ST"; city := Some "GASTONIA"; state := Some "NC";
       zip_code := None |}.
Proof. vm_compute. reflexivity. Qed.

Example situs_court :
  split_situs "  5 oak   ct 28083-1234 " (Some "nc") None
  = {| street := "5 oak ct"; city := None; state := Some "nc";
       zip_code := Some "28083" |}.
Proof. vm_compute. reflexivity. Qed.

Example situs_forest_park :
  split_situs "123 MAIN ST FOREST PARK GA" (Some "GA") None
  = {| street := "123 MAIN ST FOREST"; city := Some "PARK"; state := Some "GA";
       zip_code := None |}.
Proof. vm_compute. reflexivity. Qed.

End SitusFacts.

Section PyStrFacts.
Import PyStr.
Local Open Scope string_scope.
Local Arguments String.append : simpl nomatch.








End PyStrFacts.

Section SitusTokens.
Import PyStr Situs.
Local Open Scope string_scope.
Local Arguments String.append : simpl nomatch.















(** *** Indexing the list of parts *)








End SitusTokens.

Section SitusRoundTrip.
Import PyStr Situs.
Local Open Scope string_scope.





End SitusRoundTrip.

Section PlanetaryFacts.
Import Planetary.
Local Open Scope Q_scope.

Example ndvi_green :
  read_ndvi_from_cog (Located green_cog 1 1) 3
  = {| ndvi := Some (4667 # 10000); red := Some (250 # 9); nir := Some (700 # 9);
       error := None |}.
Proof. vm_compute. reflexivity. Qed.

Example ndvi_corner :
  ndvi (read_ndvi_from_cog (Located green_cog 0 0) 3) = Some (4667 # 10000).
Proof. vm_compute. reflexivity. Qed.

Example ndvi_outside :
  read_ndvi_from_cog (Located green_cog 1 7) 3 = failed "pixel_out_of_bounds".
Proof. vm_compute. reflexivity. Qed.

Example ndvi_three_bands :
  read_ndvi_from_cog (Located rgb_cog 1 1) 3 = failed "insufficient_bands: 3".
Proof. vm_compute. reflexivity. Qed.

Example ndvi_nodata :
  read_ndvi_from_cog (Located nodata_cog 1 1) 3
  = {| ndvi := Some 0; red := Some (0 # 9); nir := Some (0 # 9); error := None |}.
Proof. vm_compute. reflexivity. Qed.

Lemma zip_with_Qplus (a b : list Q) :
  zip_with Qplus a b = map (fun p => p.1 + p.2) (zip a b).
Proof.
  revert b. induction a as [|x a IH]; intros [|y b]; simpl; try done.
  by rewrite IH.
Qed.

(** Selecting by the mask after [np.where] is mapping over the filtered
    pixels. *)
Lemma select_where (l : list (Q * Q)) :
  select (map (fun p => Py.gtb (p.1 + p.2) 0) l)
         (zip_with (fun (v : bool) nr => if v then (nr.1 - nr.2) / (nr.1 + nr.2) else 0)
                   (map (fun p => Py.gtb (p.1 + p.2) 0) l) l)
  = map (fun p => (p.1 - p.2) / (p.1 + p.2)) (valid_pixels l).
Proof.
  unfold valid_pixels. induction l as [|p l IH]; simpl; [done|].
  destruct (Py.gtb (p.1 + p.2) 0); simpl; by rewrite IH.
Qed.

Lemma any_valid (l : list (Q * Q)) :
  existsb (fun v => v) (map (fun p => Py.gtb (p.1 + p.2) 0) l)
  = match valid_pixels l with [] => false | _ :: _ => true end.
Proof.
  unfold valid_pixels. induction l as [|p l IH]; simpl; [done|].
  by destruct (Py.gtb (p.1 + p.2) 0).
Qed.




End PlanetaryFacts.

Section SitusClaims.
Import PyStr Situs.
Local Open Scope string_scope.


(** Of a ZIP+4 only the first five digits are returned. *)
Example split_situs_zip4 :
  zip_code (split_situs "123 MAIN ST CHARLOTTE NC 28083-1234" None None) = Some "28083".
Proof. vm_compute. reflexivity. Qed.



End SitusClaims.

Section JsonLinesFacts.
Import Db JsonLines.
Local Open Scope string_scope.

Example loads_dumps_samples :
  map (fun r => loads (dumps r ++ String UspsFlush.newline ""))
      (map UspsFlush.strip_internal sample_batch)
  = map Some (map UspsFlush.strip_internal sample_batch).
Proof. vm_compute. reflexivity. Qed.

End JsonLinesFacts.

Section JournalFacts.
Import Db UspsFlush.
Local Open Scope string_scope.
Local Arguments String.append : simpl nomatch.

Variable dumps : gmap string value -> string.
Variable loads : string -> option (gmap string value).
Variable isoformat : Z -> string.

Local Abbreviation line r := (dumps (safe isoformat r) ++ String newline "").







End JournalFacts.

Section FlushFacts.
Import Db.



(** A flush of the USPS pass that writes to the store and returns leaves
    every drained result either in a batch the store has committed, or back
    in the buffer and in the journal. *)
Lemma usps_flush_accounts_for_results
    (dumps : gmap string value -> string) (isoformat : Z -> string)
    (store_up disk_ok : bool) (appended : list (gmap string value))
    (now : Z) (st : UspsFlush.pass_state) :
  let r := UspsFlush.flush_buffer dumps isoformat false store_up disk_ok appended now st in
  let db_batch := map UspsFlush.strip_internal (UspsFlush.results_buffer st) in
  UspsFlush.raised r = false ->
  (UspsFlush.table (UspsFlush.after r)
     = committed (batch_update_usps_results now db_batch (UspsFlush.table st)) /\
   is_Some (returned (batch_update_usps_results now db_batch (UspsFlush.table st))))
  \/
  (forall x, x ∈ UspsFlush.results_buffer st ->
             x ∈ UspsFlush.results_buffer (UspsFlush.after r)).
Proof.
  cbv zeta. unfold UspsFlush.flush_buffer.
  destruct (UspsFlush.results_buffer st) as [|b bs] eqn:Eb.
  { intros _. right. intros x Hx. by apply elem_of_nil in Hx. }
  destruct (if store_up
            then returned (batch_update_usps_results now
                             (map UspsFlush.strip_internal (b :: bs)) (UspsFlush.table st))
            else None) as [updated|] eqn:Eu.
  - intros _. left. destruct store_up; [|done]. rewrite Eu. eauto.
  - destruct disk_ok; [|done]. intros _. right.
    cbn [UspsFlush.after UspsFlush.results_buffer].
    intros x Hx.
    assert (Hin : x ∈ rev (b :: bs)).
    { apply list_elem_of_In, (proj1 (in_rev _ _)), list_elem_of_In. exact Hx. }
    exact (proj2 (elem_of_app _ _ _) (or_introl Hin)).
Qed.


End FlushFacts.

Section FlushWitnesses.
Import Db JsonLines.
Local Open Scope string_scope.

Example replayed_sample_table :
  map (fun cur => (column cur "parcel_id", column cur "usps_check_date",
                   column cur "usps_error", column cur "flag_vacancy"))
      (UspsFlush.table_after
         (UspsFlush.replay_backup loads
            (UspsFlush.journal
               (UspsFlush.after
                  (UspsFlush.flush_buffer dumps isoformat false false true []
                                          1700000000 sample_state)))
            true 1700000000 sample_table))
  = [ (VStr "P1", VTime 1700000000, VNull, VBool true);
      (VStr "P2", VNull, VStr "rate_limited", VBool false);
      (VStr "P3", VTime 1700000000,
       VStr "HTTPSConnectionPool(host='apis.usps.com', port=443): Read timed out. (read timeout=30)",
       VBool false) ].
Proof. vm_compute. reflexivity. Qed.



End FlushWitnesses.

(* ===================================================================== *)
(** * Part III: further properties of the code                             *)
(* ===================================================================== *)

Section RoundFacts.
Local Open Scope Q_scope.

Lemma scale_pos (n : nat) : (0 < 10 ^ Z.of_nat n)%Z.
Proof. apply Z.pow_pos_nonneg; lia. Qed.

(** A rounded number as a fraction over the scale. *)
Lemma round_cases (x : Q) (n : nat) :
  exists k : Z,
    Py.round x n == inject_Z k / inject_Z (10 ^ Z.of_nat n) /\
    (k = Qfloor (x * inject_Z (10 ^ Z.of_nat n)) \/
     (k = Qfloor (x * inject_Z (10 ^ Z.of_nat n)) + 1)%Z /\
     inject_Z (Qfloor (x * inject_Z (10 ^ Z.of_nat n))) + (1 # 2)
       <= x * inject_Z (10 ^ Z.of_nat n)).
Proof.
  unfold Py.round.
  set (scale := (10 ^ Z.of_nat n)%Z).
  set (y := x * inject_Z scale).
  set (f := Qfloor y).
  destruct (Qlt_le_dec (y - inject_Z f) (1 # 2)) as [H1|H1].
  - exists f. split; [apply Qred_correct | by left].
  - destruct (Qlt_le_dec (1 # 2) (y - inject_Z f)) as [H2|H2].
    + exists (f + 1)%Z. split; [apply Qred_correct | right; split; [done | lra]].
    + destruct (Z.even f).
      * exists f. split; [apply Qred_correct | by left].
      * exists (f + 1)%Z. split; [apply Qred_correct | right; split; [done | lra]].
Qed.

(** Rounding does not cross a multiple of the unit: bounds that are
    themselves multiples of [10^-n] are kept. *)
Lemma round_upper (x : Q) (n : nat) (m : Z) :
  x * inject_Z (10 ^ Z.of_nat n) <= inject_Z m ->
  Py.round x n <= inject_Z m / inject_Z (10 ^ Z.of_nat n).
Proof.
  intros Hx. destruct (round_cases x n) as (k & Hk & Hc).
  pose proof (scale_pos n) as Hs.
  set (scale := (10 ^ Z.of_nat n)%Z) in *.
  assert (Hsq : 0 < inject_Z scale) by (rewrite <- (Zlt_Qlt 0); exact Hs).
  rewrite Hk. apply Qmult_le_r with (z := inject_Z scale); [done|].
  unfold Qdiv. rewrite <- !Qmult_assoc, (Qmult_comm (/ _)), Qmult_inv_r, !Qmult_1_r by lra.
  rewrite <- Zle_Qle.
  pose proof (Qfloor_le (x * inject_Z scale)) as Hfl.
  destruct Hc as [-> | [-> Hhalf]].
  - rewrite Zle_Qle. lra.
  - assert (Hlt : inject_Z (Qfloor (x * inject_Z scale)) < inject_Z m) by lra.
    rewrite <- Zlt_Qlt in Hlt. lia.
Qed.

Lemma round_lower (x : Q) (n : nat) (m : Z) :
  inject_Z m <= x * inject_Z (10 ^ Z.of_nat n) ->
  inject_Z m / inject_Z (10 ^ Z.of_nat n) <= Py.round x n.
Proof.
  intros Hx. destruct (round_cases x n) as (k & Hk & Hc).
  pose proof (scale_pos n) as Hs.
  set (scale := (10 ^ Z.of_nat n)%Z) in *.
  assert (Hsq : 0 < inject_Z scale) by (rewrite <- (Zlt_Qlt 0); exact Hs).
  rewrite Hk. apply Qmult_le_r with (z := inject_Z scale); [done|].
  unfold Qdiv. rewrite <- !Qmult_assoc, (Qmult_comm (/ _)), Qmult_inv_r, !Qmult_1_r by lra.
  rewrite <- Zle_Qle.
  assert (Hm : (m <= Qfloor (x * inject_Z scale))%Z).
  { rewrite <- (Qfloor_Z m). by apply Qfloor_resp_le. }
  destruct Hc as [-> | [-> _]]; lia.
Qed.

Lemma round_between_ints (x : Q) (n : nat) (lo hi : Z) :
  inject_Z lo <= x <= inject_Z hi ->
  inject_Z lo <= Py.round x n <= inject_Z hi.
Proof.
  intros [Hlo Hhi].
  pose proof (scale_pos n) as Hs.
  assert (Hsq : 0 < inject_Z (10 ^ Z.of_nat n)) by (rewrite <- (Zlt_Qlt 0); exact Hs).
  split.
  - assert (H := round_lower x n (lo * 10 ^ Z.of_nat n)).
    rewrite inject_Z_mult in H.
    assert (Hd : inject_Z lo * inject_Z (10 ^ Z.of_nat n) / inject_Z (10 ^ Z.of_nat n)
                 == inject_Z lo) by (field; lra).
    rewrite Hd in H. apply H. by apply Qmult_le_compat_r; [|lra].
  - assert (H := round_upper x n (hi * 10 ^ Z.of_nat n)).
    rewrite inject_Z_mult in H.
    assert (Hd : inject_Z hi * inject_Z (10 ^ Z.of_nat n) / inject_Z (10 ^ Z.of_nat n)
                 == inject_Z hi) by (field; lra).
    rewrite Hd in H. apply H. by apply Qmult_le_compat_r; [|lra].
Qed.

End RoundFacts.

Section ConvictionMore.
Import Conviction.
Local Open Scope Q_scope.

Lemma clamp_between (x lo hi : Q) : lo <= hi -> lo <= clamp x lo hi <= hi.
Proof.
  intros H. unfold clamp, Py.max, Py.min.
  destruct (Qlt_le_dec hi x); destruct (Qlt_le_dec lo _); lra.
Qed.

Lemma clamp_id (x lo hi : Q) : lo <= x <= hi -> clamp x lo hi == x.
Proof.
  intros H. unfold clamp, Py.max, Py.min.
  destruct (Qlt_le_dec hi x); destruct (Qlt_le_dec lo _);
    try lra; apply Qle_antisym; lra.
Qed.

Lemma clamp_scale (x : Q) : 10 * clamp (x / 10) 0 1 == clamp x 0 10.
Proof.
  assert (Hx : x / 10 == x * (1 # 10)) by (field; lra).
  set (t := x / 10) in *.
  unfold clamp, Py.max, Py.min.
  destruct (Qlt_le_dec 1 t); destruct (Qlt_le_dec 10 x);
    repeat match goal with
           | |- context [Qlt_le_dec 0 ?b] => destruct (Qlt_le_dec 0 b)
           end;
    try lra; apply Qle_antisym; lra.
Qed.

Lemma clamp_proper (x y lo hi : Q) : x == y -> clamp x lo hi == clamp y lo hi.
Proof.
  intros H. unfold clamp, Py.max, Py.min.
  destruct (Qlt_le_dec hi x); destruct (Qlt_le_dec hi y);
    repeat match goal with
           | |- context [Qlt_le_dec lo ?b] => destruct (Qlt_le_dec lo b)
           end;
    try lra; apply Qle_antisym; lra.
Qed.

Lemma or_zero_some (q : Q) : Py.or_zero (Some q) == q.
Proof.
  unfold Py.or_zero. destruct (Qeq_bool q 0) eqn:E; [|reflexivity].
  apply Qeq_bool_iff in E. by rewrite E.
Qed.

(** The conviction score, when there is one, lies between 0 and 10, and the
    vacancy bonus between 0 and 2.5, whatever the inputs. *)
Theorem conviction_score_range
    (ds_composite : option Q) (mc_raw : Q) (mc_count : option Z)
    (flag_vacancy : option bool) (vac_conf : option Q) (usps_error : option string) :
  let r := compute_conviction ds_composite mc_raw mc_count flag_vacancy vac_conf usps_error in
  match conviction_score r with
  | Some s => 0 <= s <= 10
  | None => True
  end /\ 0 <= vacancy_bonus r <= 25 # 10.
Proof.
  cbv zeta.
  assert (Hvb : forall vb, 0 <= vb <= 25 # 10 -> 0 <= Py.round vb 2 <= 25 # 10).
  { intros vb [H0 H1]. split.
    - apply (round_between_ints vb 2 0 3). unfold inject_Z. lra.
    - pose proof (round_upper vb 2 250) as H.
      change (10 ^ Z.of_nat 2)%Z with 100%Z in H.
      assert (Hq : inject_Z 250 / inject_Z 100 == 25 # 10) by reflexivity.
      rewrite <- Hq. apply H. unfold inject_Z. lra. }
  assert (Hvac : 0 <= (if Py.truthy_bool flag_vacancy && negb (Py.truthy_str usps_error)
                       then VAC_BONUS_MAX * clamp (match vac_conf with
                                                   | Some c => c
                                                   | None => 8 # 10
                                                   end) 0 1
                       else 0) <= 25 # 10).
  { destruct (_ && _); [|lra].
    pose proof (clamp_between (match vac_conf with Some c => c | None => 8 # 10 end) 0 1).
    unfold VAC_BONUS_MAX. lra. }
  unfold compute_conviction.
  destruct (Py.eqb _ 0); cbn [conviction_score vacancy_bonus].
  - split; [done | by apply Hvb].
  - split; [|by apply Hvb].
    apply (round_between_ints _ 2 0 10). apply clamp_between. done.
Qed.

(** A parcel with a DS composite, no MC signals and no vacancy bonus passes
    through: score and base score are the composite, clamped to [0, 10] and
    rounded to 2 decimals, and the only component is DS. *)
Theorem conviction_ds_only_passes_through
    (ds : Q) (mc_raw : Q) (mc_count : option Z)
    (flag_vacancy : option bool) (vac_conf : option Q) (usps_error : option string) :
  mc_missing mc_count = true ->
  Py.truthy_bool flag_vacancy && negb (Py.truthy_str usps_error) = false ->
  compute_conviction (Some ds) mc_raw mc_count flag_vacancy vac_conf usps_error
  = {| conviction_score := Some (Py.round (clamp ds 0 10) 2);
       base_score := Some (Py.round (clamp ds 0 10) 2);
       vacancy_bonus := 0;
       components := ["DS"%string] |}.
Proof.
  intros Hmc Hvac. unfold compute_conviction. rewrite Hmc, Hvac.
  cbn [negb]. change (Py.eqb (W_DS + 0) 0) with false. cbv iota.
  assert (Hbase : 10 * (W_DS * Py.or_zero (Some (clamp (ds / 10) 0 1)) + W_MC * Py.or_zero None)
                  / (W_DS + 0) == clamp ds 0 10).
  { rewrite or_zero_some, <- clamp_scale. unfold W_DS, W_MC, Py.or_zero. field. }
  assert (Hscore : clamp (10 * (W_DS * Py.or_zero (Some (clamp (ds / 10) 0 1))
                                + W_MC * Py.or_zero None) / (W_DS + 0) + 0) 0 10
                   == clamp ds 0 10).
  { rewrite (clamp_proper _ (clamp ds 0 10)) by (rewrite Qplus_0_r; exact Hbase).
    apply clamp_id. apply clamp_between. lra. }
  rewrite (round_proper _ _ 2 Hscore), (round_proper _ _ 2 Hbase).
  reflexivity.
Qed.

Lemma conviction_ds_only_passes_through_witness :
  compute_conviction (Some 6) 0 (Some 0%Z) (Some false) None None
  = {| conviction_score := Some (Py.round (clamp 6 0 10) 2);
       base_score := Some (Py.round (clamp 6 0 10) 2);
       vacancy_bonus := 0;
       components := ["DS"%string] |}.
Proof.
  apply (conviction_ds_only_passes_through 6 0 (Some 0%Z) (Some false) None None);
    reflexivity.
Defined.





End ConvictionMore.

Section EvaluatorFacts.
Import Evaluators.
Local Open Scope Q_scope.

Lemma min_le_r (a b : Q) : Py.min a b <= b.
Proof. unfold Py.min. destruct (Qlt_le_dec b a); lra. Qed.

Lemma min_le_l (a b : Q) : Py.min a b <= a.
Proof. unfold Py.min. destruct (Qlt_le_dec b a); lra. Qed.

Lemma min_glb (a b c : Q) : c <= a -> c <= b -> c <= Py.min a b.
Proof. unfold Py.min. destruct (Qlt_le_dec b a); lra. Qed.

Lemma max_lub (a b c : Q) : a <= c -> b <= c -> Py.max a b <= c.
Proof. unfold Py.max. destruct (Qlt_le_dec a b); lra. Qed.

Lemma max_ge_l (a b : Q) : a <= Py.max a b.
Proof. unfold Py.max. destruct (Qlt_le_dec a b); lra. Qed.

Lemma gtb_true (a b : Q) : Py.gtb a b = true <-> b < a.
Proof. unfold Py.gtb. destruct (Qlt_le_dec b a); split; (done || lra). Qed.

Lemma leb_true (a b : Q) : Py.leb a b = true <-> a <= b.
Proof. unfold Py.leb. destruct (Qlt_le_dec b a); split; (done || lra). Qed.


Lemma neglect_raw_range (c : Q) :
  NDVI_NEGLECT_MIN <= c <= NDVI_NEGLECT_MAX ->
  30 # 100 <= Py.round (1 - ((c - NDVI_NEGLECT_MIN)
                             / (NDVI_NEGLECT_MAX - NDVI_NEGLECT_MIN)) * (7 # 10)) 2 <= 1.
Proof.
  unfold NDVI_NEGLECT_MIN, NDVI_NEGLECT_MAX. intros [H1 H2].
  set (raw := 1 - ((c - (10 # 100)) / ((30 # 100) - (10 # 100))) * (7 # 10)).
  assert (Hraw : raw == 1 - (c - (10 # 100)) * (35 # 10)) by (unfold raw; field).
  split.
  - pose proof (round_lower raw 2 30) as H.
    change (10 ^ Z.of_nat 2)%Z with 100%Z in H.
    assert (Hq : inject_Z 30 / inject_Z 100 == 30 # 100) by reflexivity.
    rewrite <- Hq. apply H. unfold inject_Z. lra.
  - pose proof (round_upper raw 2 100) as H.
    change (10 ^ Z.of_nat 2)%Z with 100%Z in H.
    assert (Hq : inject_Z 100 / inject_Z 100 == 1) by reflexivity.
    rewrite <- Hq. apply H. unfold inject_Z. lra.
Qed.

(** The neglect flag fires exactly when the aerial reading has no errors and
    its NDVI lies in the band [0.10, 0.30], bounds included; the confidence
    is then between 0.30 and 1, and 0 when the flag does not fire. *)
Theorem vegetation_neglect_band (naip : option Flags.naip) (f : option fema) :
  let r := evaluate_vegetation_neglect naip f in
  (flag r = true <->
     exists n c, naip = Some n /\ Flags.naip_errors n = false /\
                 Flags.current_ndvi n = Some c /\ 10 # 100 <= c <= 30 # 100) /\
  (flag r = false -> confidence r = 0) /\
  (flag r = true -> 30 # 100 <= confidence r <= 1).
Proof.
  cbv zeta. unfold evaluate_vegetation_neglect.
  destruct naip as [n|];
    [|by repeat split; try done; intros (? & ? & ? & _)].
  destruct (Flags.naip_errors n) eqn:He;
    [by repeat split; try done; intros (? & ? & [= <-] & ? & _); congruence|].
  destruct (Flags.current_ndvi n) as [c|] eqn:Hc;
    [|by repeat split; try done; intros (? & ? & [= <-] & _ & ? & _); congruence].
  destruct (Py.leb NDVI_NEGLECT_MIN c && Py.leb c NDVI_NEGLECT_MAX) eqn:Hband.
  - apply andb_true_iff in Hband as [H1 H2].
    apply leb_true in H1. apply leb_true in H2.
    pose proof (neglect_raw_range c (conj H1 H2)) as Hr.
    destruct f as [f|]; [destruct (negb (fema_errors f) && _)|];
      cbn [flag confidence];
      (split; [split; [intros _; exists n, c; done | done]|]);
      (split; [done|]); intros _.
    + split; [apply min_glb; lra | apply min_le_r].
    + exact Hr.
    + exact Hr.
  - cbn [flag confidence no_flag]. repeat split; try done.
    intros (n' & c' & [= <-] & _ & Hc' & Hb1 & Hb2).
    rewrite Hc in Hc'. injection Hc' as <-.
    apply andb_false_iff in Hband as [H|H].
    + assert (Py.leb NDVI_NEGLECT_MIN c = true) by (by apply leb_true). congruence.
    + assert (Py.leb c NDVI_NEGLECT_MAX = true) by (by apply leb_true). congruence.
Qed.

Lemma naip_check_sound (n : option Flags.naip) :
  0 <= (Flags.naip_check n).1.2 <= 1 /\
  ((Flags.naip_check n).1.1 = false -> (Flags.naip_check n).1.2 = 0) /\
  ((Flags.naip_check n).1.1 = true ->
     exists nn c, n = Some nn /\ Flags.naip_errors nn = false /\
                  Flags.current_ndvi nn = Some c /\ 50 # 100 < c).
Proof.
  assert (Hconf : forall c h cap, 0 <= cap <= 1 -> h + (15 # 100) < c ->
                    0 <= Py.min ((c - h) / (3 # 10)) cap <= 1).
  { intros c h cap Hcap Hd.
    assert (Hq : (c - h) / (3 # 10) == (c - h) * (10 # 3)) by field.
    split; [apply min_glb; lra|].
    eapply Qle_trans; [apply min_le_r | lra]. }
  unfold Flags.naip_check.
  destruct n as [nn|]; [|by cbn; repeat split; try lra].
  destruct (Flags.naip_errors nn) eqn:He; [by cbn; repeat split; try lra|].
  destruct (Flags.current_ndvi nn) as [c|] eqn:Hc; [|by cbn; repeat split; try lra].
  destruct (Py.gtb c Flags.NDVI_OVERGROWTH_STRONG) eqn:Hs.
  - apply gtb_true in Hs. unfold Flags.NDVI_OVERGROWTH_STRONG in Hs.
    destruct (Flags.mean_historical_ndvi nn) as [h|].
    + destruct (Py.gtb c (h + Flags.NDVI_OVERGROWTH_CHANGE)) eqn:Hd;
        [|by cbn; repeat split; try lra].
      apply gtb_true in Hd. unfold Flags.NDVI_OVERGROWTH_CHANGE in Hd.
      cbn [fst snd]. split; [apply Hconf; lra|]. split; [done|].
      intros _. exists nn, c. repeat split; try done. lra.
    + cbn [fst snd]. split; [lra|]. split; [done|].
      intros _. exists nn, c. repeat split; try done. lra.
  - destruct (Py.gtb c Flags.NDVI_OVERGROWTH_MODERATE) eqn:Hm;
      [|by cbn; repeat split; try lra].
    apply gtb_true in Hm. unfold Flags.NDVI_OVERGROWTH_MODERATE in Hm.
    destruct (Flags.mean_historical_ndvi nn) as [h|]; [|by cbn; repeat split; try lra].
    destruct (Py.gtb c (h + Flags.NDVI_OVERGROWTH_CHANGE)) eqn:Hd;
      [|by cbn; repeat split; try lra].
    apply gtb_true in Hd. unfold Flags.NDVI_OVERGROWTH_CHANGE in Hd.
    cbn [fst snd]. split; [apply Hconf; lra|]. split; [done|].
    intros _. exists nn, c. repeat split; try done.
Qed.

Lemma sentinel_check_sound (s : option Flags.sentinel)
    (ev : gmap string Flags.evidence_value) :
  (Flags.sentinel_check s ev).1.2 <= 1 /\
  ((Flags.sentinel_check s ev).1.1 = false -> (Flags.sentinel_check s ev).1.2 = 0) /\
  ((Flags.sentinel_check s ev).1.1 = true ->
     exists ss l, s = Some ss /\ Flags.sentinel_errors ss = false /\
                  Flags.trend_direction ss = Some "increasing"%string /\
                  Flags.latest_ndvi ss = Some l /\ 50 # 100 < l).
Proof.
  unfold Flags.sentinel_check.
  destruct s as [ss|]; [|by cbn; repeat split; try lra].
  destruct (Flags.sentinel_errors ss) eqn:He; [by cbn; repeat split; try lra|].
  destruct (Flags.trend_direction ss) as [d|] eqn:Hd; [|by cbn; repeat split; try lra].
  destruct (Flags.trend_slope ss) as [sl|]; [|by cbn; repeat split; try lra].
  destruct (String.eqb d "increasing") eqn:Hi; [|by cbn; repeat split; try lra].
  apply String.eqb_eq in Hi. subst d.
  destruct (Flags.latest_ndvi ss) as [l|] eqn:Hl; [|by cbn; repeat split; try lra].
  destruct (negb (Py.eqb l 0) && Py.gtb l Flags.NDVI_OVERGROWTH_MODERATE) eqn:Hg;
    [|by cbn; repeat split; try lra].
  apply andb_true_iff in Hg as [_ Hg]. apply gtb_true in Hg.
  unfold Flags.NDVI_OVERGROWTH_MODERATE in Hg.
  cbn [fst snd]. split; [apply min_le_r|]. split; [done|].
  intros _. exists ss, l. repeat split; done.
Qed.

(** The overgrowth flag fires only on a reading above 0.50 from a source
    that reported no errors: the aerial NDVI, or the latest NDVI of an
    increasing trend.  Its confidence never exceeds 1 and is 0 when the flag
    does not fire. *)
Theorem overgrowth_fires_on_high_ndvi (n : option Flags.naip) (s : option Flags.sentinel) :
  let r := Flags.evaluate_vegetation_overgrowth n s in
  Flags.confidence r <= 1 /\
  (Flags.flag r = false -> Flags.confidence r = 0) /\
  (Flags.flag r = true ->
     (exists nn c, n = Some nn /\ Flags.naip_errors nn = false /\
                   Flags.current_ndvi nn = Some c /\ 50 # 100 < c) \/
     (exists ss l, s = Some ss /\ Flags.sentinel_errors ss = false /\
                   Flags.trend_direction ss = Some "increasing"%string /\
                   Flags.latest_ndvi ss = Some l /\ 50 # 100 < l)).
Proof.
  cbv zeta. unfold Flags.evaluate_vegetation_overgrowth.
  pose proof (naip_check_sound n) as (Hnc & Hn0 & Hn1).
  destruct (Flags.naip_check n) as [[nf nc] ev1]. cbn [fst snd] in *.
  pose proof (sentinel_check_sound s ev1) as (Hsc & Hs0 & Hs1).
  destruct (Flags.sentinel_check s ev1) as [[sf sc] ev2]. cbn [fst snd] in *.
  destruct nf, sf; cbn [andb Flags.flag Flags.confidence].
  - split; [apply min_le_r|]. split; [done|]. intros _. left. by apply Hn1.
  - split; [|split; [done | intros _; left; by apply Hn1]].
    destruct (_ && _); lra.
  - split; [lra|]. split; [done|]. intros _. right. by apply Hs1.
  - split; [lra|]. split; [done|]. done.
Qed.

(** The structural-change flag fires only on a drop of more than 0.20 seen
    by a source that reported no errors: historical mean minus current
    aerial NDVI, or earliest minus latest NDVI of a decreasing trend.  Its
    confidence lies between 0 and 1 and is 0 when the flag does not fire. *)
Theorem structural_fires_on_drop (n : option Flags.naip) (t : option trend) :
  let r := evaluate_structural_change n t in
  0 <= confidence r <= 1 /\
  (flag r = false -> confidence r = 0) /\
  (flag r = true ->
     (exists nn c h, n = Some nn /\ Flags.naip_errors nn = false /\
                     Flags.current_ndvi nn = Some c /\
                     Flags.mean_historical_ndvi nn = Some h /\ 20 # 100 < h - c) \/
     (exists tr e l, t = Some tr /\ Flags.sentinel_errors (sentinel tr) = false /\
                     Flags.trend_direction (sentinel tr) = Some "decreasing"%string /\
                     earliest_ndvi tr = Some e /\
                     Flags.latest_ndvi (sentinel tr) = Some l /\ 20 # 100 < e - l)).
Proof.
  cbv zeta. unfold evaluate_structural_change.
  set (nres := match n with Some nn => _ | None => _ end).
  assert (Hn : 0 <= nres.1.2 <= 1 /\ (nres.1.1 = false -> nres.1.2 = 0) /\
               (nres.1.1 = true ->
                exists nn c h, n = Some nn /\ Flags.naip_errors nn = false /\
                               Flags.current_ndvi nn = Some c /\
                               Flags.mean_historical_ndvi nn = Some h /\
                               20 # 100 < h - c)).
  { unfold nres. destruct n as [nn|]; [|by cbn; repeat split; try lra].
    destruct (Flags.naip_errors nn) eqn:He; [by cbn; repeat split; try lra|].
    destruct (Flags.current_ndvi nn) as [c|] eqn:Hc; [|by cbn; repeat split; try lra].
    destruct (Flags.mean_historical_ndvi nn) as [h|] eqn:Hh;
      [|by cbn; repeat split; try lra].
    destruct (Py.gtb (h - c) NDVI_DROP_THRESHOLD) eqn:Hd; [|by cbn; repeat split; try lra].
    apply gtb_true in Hd. unfold NDVI_DROP_THRESHOLD in Hd.
    cbn [fst snd].
    assert (Hq : (h - c) / (4 # 10) == (h - c) * (10 # 4)) by field.
    split; [split; [apply min_glb; lra | apply min_le_r]|].
    split; [done|]. intros _. exists nn, c, h. done. }
  destruct nres as [[nf nc] ev1]. cbn [fst snd] in Hn. destruct Hn as (Hnc & Hn0 & Hn1).
  set (sres := match t with Some tr => _ | None => _ end).
  assert (Hs : 0 <= sres.1.2 <= 1 /\ (sres.1.1 = false -> sres.1.2 = 0) /\
               (sres.1.1 = true ->
                exists tr e l, t = Some tr /\ Flags.sentinel_errors (sentinel tr) = false /\
                               Flags.trend_direction (sentinel tr)
                               = Some "decreasing"%string /\
                               earliest_ndvi tr = Some e /\
                               Flags.latest_ndvi (sentinel tr) = Some l /\
                               20 # 100 < e - l)).
  { unfold sres. destruct t as [tr|]; [|by cbn; repeat split; try lra].
    cbv zeta.
    destruct (Flags.sentinel_errors (sentinel tr)) eqn:He;
      [by cbn; repeat split; try lra|].
    destruct (Flags.trend_direction (sentinel tr)) as [d|] eqn:Hd;
      [|by cbn; repeat split; try lra].
    destruct (Flags.trend_slope (sentinel tr)) as [sl|]; [|by cbn; repeat split; try lra].
    destruct (String.eqb d "decreasing") eqn:Hi; [|by cbn; repeat split; try lra].
    apply String.eqb_eq in Hi. subst d.
    destruct (earliest_ndvi tr) as [e|] eqn:Hee; [|by cbn; repeat split; try lra].
    destruct (Flags.latest_ndvi (sentinel tr)) as [l|] eqn:Hl;
      [|by cbn; repeat split; try lra].
    destruct (negb (Py.eqb e 0) && negb (Py.eqb l 0)
              && Py.gtb (e - l) NDVI_DROP_THRESHOLD) eqn:Hg;
      [|by cbn; repeat split; try lra].
    apply andb_true_iff in Hg as [_ Hg]. apply gtb_true in Hg.
    unfold NDVI_DROP_THRESHOLD in Hg. cbn [fst snd].
    assert (Hq : Qabs sl / (2 # 100) == Qabs sl * 50) by field.
    pose proof (Qabs_nonneg sl).
    split; [split; [apply min_glb; lra | apply min_le_r]|].
    split; [done|]. intros _. exists tr, e, l. done. }
  destruct sres as [[sf sc] ev2]. cbn [fst snd] in Hs. destruct Hs as (Hsc & Hs0 & Hs1).
  destruct nf, sf; cbn [andb flag confidence].
  - split; [split; [|apply min_le_r]|].
    + apply min_glb; [|lra]. pose proof (max_ge_l nc sc). lra.
    + split; [done|]. intros _. left. by apply Hn1.
  - split; [lra|]. split; [done|]. intros _. left. by apply Hn1.
  - split; [lra|]. split; [done|]. intros _. right. by apply Hs1.
  - split; [lra|]. done.
Qed.

End EvaluatorFacts.

Section ScanFacts.
Import Evaluators.
Local Open Scope Q_scope.

Lemma signal_code_overgrowth (n : option Flags.naip) (s : option Flags.sentinel) :
  Flags.signal_code (Flags.evaluate_vegetation_overgrowth n s)
  = "vegetation_overgrowth"%string.
Proof.
  unfold Flags.evaluate_vegetation_overgrowth.
  destruct (Flags.naip_check n) as [[nf nc] ev1].
  destruct (Flags.sentinel_check s ev1) as [[sf sc] ev2].
  by destruct nf, sf.
Qed.

Lemma signal_code_neglect (n : option Flags.naip) (f : option fema) :
  signal_code (evaluate_vegetation_neglect n f) = "vegetation_neglect"%string.
Proof.
  unfold evaluate_vegetation_neglect, no_flag.
  repeat (match goal with
          | |- context [match ?x with _ => _ end] => destruct x
          end; try reflexivity).
Qed.

Lemma signal_code_flood (f : option fema) :
  signal_code (evaluate_flood_risk f) = "flood_risk"%string.
Proof.
  unfold evaluate_flood_risk, no_flag.
  repeat (match goal with
          | |- context [match ?x with _ => _ end] => destruct x
          end; try reflexivity).
Qed.

Lemma signal_code_structural (n : option Flags.naip) (t : option trend) :
  signal_code (evaluate_structural_change n t) = "structural_change"%string.
Proof.
  unfold evaluate_structural_change.
  destruct (match n with Some _ => _ | None => _ end) as [[nf nc] ev1].
  destruct (match t with Some _ => _ | None => _ end) as [[sf sc] ev2].
  by destruct nf, sf.
Qed.

Lemma signal_code_usps (u : option usps) :
  signal_code (evaluate_usps_vacancy u) = "usps_vacancy"%string.
Proof.
  unfold evaluate_usps_vacancy, no_flag.
  destruct u as [v|]; [|done]. by destruct (vacant v) as [[]|].
Qed.

(** Bounds on the confidence of each evaluator, for the results on lists of
    flags below. *)
Lemma usps_confidence_le_1 (u : option usps) :
  confidence (evaluate_usps_vacancy u) <= 1.
Proof.
  unfold evaluate_usps_vacancy, no_flag.
  destruct u as [v|]; [|cbn; lra].
  destruct (vacant v) as [[|]|]; cbn [confidence]; try lra.
  destruct (address_mismatch v).
  - eapply Qle_trans; [apply min_le_r | lra].
  - destruct (dpv_confirmed v) as [[|]|]; lra.
Qed.

Lemma flood_confidence_values (f : option fema) :
  flag (evaluate_flood_risk f) = true ->
  confidence (evaluate_flood_risk f) = 1 \/ confidence (evaluate_flood_risk f) = 6 # 10.
Proof.
  unfold evaluate_flood_risk, no_flag.
  destruct f as [ff|]; [|done].
  destruct (fema_errors ff); [done|].
  destruct (risk_is ff "high" || Py.truthy_bool (is_sfha ff)); [by left|].
  destruct (risk_is ff "moderate"); [by right | done].
Qed.

Lemma neglect_fired (naip : option Flags.naip) (f : option fema) :
  flag (evaluate_vegetation_neglect naip f) = true ->
  30 # 100 <= confidence (evaluate_vegetation_neglect naip f) <= 1 /\
  exists n c, naip = Some n /\ Flags.current_ndvi n = Some c /\ c <= 30 # 100.
Proof.
  unfold evaluate_vegetation_neglect, no_flag.
  destruct naip as [n|]; [|done].
  destruct (Flags.naip_errors n); [done|].
  destruct (Flags.current_ndvi n) as [c|] eqn:Hc; [|done].
  destruct (Py.leb NDVI_NEGLECT_MIN c && Py.leb c NDVI_NEGLECT_MAX) eqn:Hband; [|done].
  apply andb_true_iff in Hband as [H1 H2].
  apply leb_true in H1. apply leb_true in H2.
  pose proof (neglect_raw_range c (conj H1 H2)) as Hr.
  intros _. split; [|by exists n, c].
  destruct f as [f|]; [destruct (negb (fema_errors f) && _)|]; cbn [confidence];
    try exact Hr.
  split; [apply min_glb; lra | apply min_le_r].
Qed.

Lemma overgrowth_confidence_le_1 (n : option Flags.naip) (s : option Flags.sentinel) :
  Flags.confidence (Flags.evaluate_vegetation_overgrowth n s) <= 1.
Proof.
  unfold Flags.evaluate_vegetation_overgrowth.
  pose proof (naip_check_sound n) as (Hnc & _).
  destruct (Flags.naip_check n) as [[nf nc] ev1]. cbn [fst snd] in *.
  pose proof (sentinel_check_sound s ev1) as (Hsc & _).
  destruct (Flags.sentinel_check s ev1) as [[sf sc] ev2]. cbn [fst snd] in *.
  destruct nf, sf; cbn [andb Flags.confidence]; try lra.
  - apply min_le_r.
  - destruct (_ && _); lra.
Qed.

Lemma structural_confidence_le_1 (n : option Flags.naip) (t : option trend) :
  confidence (evaluate_structural_change n t) <= 1.
Proof.
  unfold evaluate_structural_change.
  set (nres := match n with Some nn => _ | None => _ end).
  assert (Hn : nres.1.2 <= 1).
  { unfold nres. destruct n as [nn|]; [|cbn; lra].
    destruct (Flags.naip_errors nn); [cbn; lra|].
    destruct (Flags.current_ndvi nn), (Flags.mean_historical_ndvi nn); try (cbn; lra).
    destruct (Py.gtb _ _); cbn [fst snd]; [apply min_le_r | lra]. }
  destruct nres as [[nf nc] ev1]. cbn [fst snd] in Hn.
  set (sres := match t with Some tr => _ | None => _ end).
  assert (Hs : sres.1.2 <= 1).
  { unfold sres. destruct t as [tr|]; [|cbn; lra]. cbv zeta.
    destruct (Flags.sentinel_errors (sentinel tr)); [cbn; lra|].
    destruct (Flags.trend_direction (sentinel tr)) as [d|]; [|cbn; lra].
    destruct (Flags.trend_slope (sentinel tr)); [|cbn; lra].
    destruct (String.eqb d "decreasing"); [|cbn; lra].
    destruct (earliest_ndvi tr), (Flags.latest_ndvi (sentinel tr)); try (cbn; lra).
    destruct (_ && _); cbn [fst snd]; [apply min_le_r | lra]. }
  destruct sres as [[sf sc] ev2]. cbn [fst snd] in Hs.
  destruct nf, sf; cbn [andb confidence]; try lra.
  apply min_le_r.
Qed.

(** The flood flag fires exactly for an error-free FEMA answer that is high
    risk, in a special flood hazard area, or moderate risk.  The hazard area
    decides the confidence before the risk level: a moderate-risk parcel
    inside one scores 1.0, not 0.6. *)
Theorem flood_risk_zones (f : option fema) :
  let r := evaluate_flood_risk f in
  (flag r = true <->
     exists ff, f = Some ff /\ fema_errors ff = false /\
                (risk_is ff "high" = true \/ is_sfha ff = Some true \/
                 risk_is ff "moderate" = true)) /\
  (flag r = false -> confidence r = 0) /\
  (flag r = true -> confidence r = 1 \/ confidence r = 6 # 10) /\
  (forall ff, f = Some ff -> fema_errors ff = false -> is_sfha ff = Some true ->
              flag r = true /\ confidence r = 1).
Proof.
  cbv zeta. unfold evaluate_flood_risk, FLOOD_HIGH_CONFIDENCE, FLOOD_MODERATE_CONFIDENCE.
  destruct f as [ff|].
  2: { cbn. split; [split; [discriminate | by intros (? & ? & _)]|].
       split; [done|]. split; [discriminate|]. by intros ? ?. }
  assert (Hex : forall P : fema -> Prop,
            (exists x, Some ff = Some x /\ P x) <-> P ff).
  { intros P. split; [by intros (? & [= <-] & ?) | by exists ff]. }
  assert (Hall : forall P : fema -> Prop,
            (forall x, Some ff = Some x -> P x) <-> P ff).
  { intros P. split; [by intros H; apply H | by intros ? ? [= <-]]. }
  rewrite Hex, Hall.
  destruct (fema_errors ff) eqn:He;
    [cbn; intuition (try (discriminate || congruence))|].
  destruct (risk_is ff "high") eqn:Hh; cbn [orb];
    [cbn; intuition (try (discriminate || congruence))|].
  destruct (is_sfha ff) as [[]|] eqn:Hs; cbn [Py.truthy_bool];
    [cbn; intuition (try (discriminate || congruence))| |];
    (destruct (risk_is ff "moderate") eqn:Hm; cbn;
     intuition (try (discriminate || congruence))).
Qed.

(** [generate_all_flags] returns only fired flags, each with a confidence
    of at most 1, and their signal codes are a subsequence of the five codes
    in evaluation order: no code twice, never out of order. *)
Theorem generate_all_flags_fired (naip : option Flags.naip) (tr : option trend)
    (f : option fema) (u : option usps) :
  let flags := generate_all_flags naip tr f u in
  (forall x, In x flags -> flag x = true /\ confidence x <= 1) /\
  sublist (map signal_code flags)
          ["vegetation_overgrowth"; "vegetation_neglect"; "flood_risk";
           "structural_change"; "usps_vacancy"]%string.
Proof.
  cbv zeta. unfold generate_all_flags. cbv zeta. split.
  - intros x Hx. apply filter_In in Hx as [Hin Hfl]. split; [done|].
    cbn [In] in Hin.
    destruct Hin as [<-|[<-|[<-|[<-|[<-|[]]]]]].
    + apply (overgrowth_confidence_le_1 naip (sentinel <$> tr)).
    + by apply neglect_fired.
    + destruct (flood_confidence_values f Hfl) as [-> | ->]; lra.
    + apply structural_confidence_le_1.
    + apply usps_confidence_le_1.
  - pose proof (signal_code_overgrowth naip (sentinel <$> tr)) as H1.
    pose proof (signal_code_neglect naip f) as H2.
    pose proof (signal_code_flood f) as H3.
    pose proof (signal_code_structural naip tr) as H4.
    pose proof (signal_code_usps u) as H5.
    cbn [List.filter].
    destruct (flag (of_overgrowth _)), (flag (evaluate_vegetation_neglect _ _)),
      (flag (evaluate_flood_risk _)), (flag (evaluate_structural_change _ _)),
      (flag (evaluate_usps_vacancy _));
      cbn [map of_overgrowth signal_code]; rewrite ?H1, ?H2, ?H3, ?H4, ?H5;
      repeat constructor.
Qed.

(** Without history or trend, the aerial evaluators reduce to thresholds on
    the one NDVI reading. *)
Lemma pass1_overgrowth (naip : naip_fast) :
  let r := Flags.evaluate_vegetation_overgrowth (naip_for_flags naip) None in
  Flags.flag r = true ->
  Flags.confidence r = 6 # 10 /\ exists v, ndvi naip = Some v /\ 65 # 100 < v.
Proof.
  cbv zeta. unfold naip_for_flags, Flags.evaluate_vegetation_overgrowth, Flags.naip_check.
  destruct (ndvi naip) as [v|]; [|by cbn].
  cbn [Flags.naip_errors Flags.current_ndvi Flags.mean_historical_ndvi].
  destruct (Py.truthy_str (error naip)); [by cbn|].
  destruct (Py.gtb v Flags.NDVI_OVERGROWTH_STRONG) eqn:Hs.
  - apply gtb_true in Hs. intros _. split; [reflexivity|]. by exists v.
  - by destruct (Py.gtb v Flags.NDVI_OVERGROWTH_MODERATE).
Qed.

Lemma pass1_structural (naip : naip_fast) :
  flag (evaluate_structural_change (naip_for_flags naip) None) = false.
Proof.
  unfold naip_for_flags, evaluate_structural_change.
  destruct (ndvi naip) as [v|]; [|done].
  cbn [Flags.naip_errors Flags.current_ndvi Flags.mean_historical_ndvi].
  by destruct (Py.truthy_str (error naip)).
Qed.

(** A Pass 1 scan raises at most the overgrowth, neglect and flood flags,
    never overgrowth and neglect together, and its score lies between 0 and
    3; the score is 0 without flags and at least 0.45 with one. *)
Theorem pass1_scan_flags (naip : naip_fast) (f : option fema) :
  let r := scan_single_parcel naip f in
  let codes := map signal_code (scan_flags r) in
  sublist codes ["vegetation_overgrowth"; "vegetation_neglect"; "flood_risk"]%string /\
  ~ (In "vegetation_overgrowth"%string codes /\ In "vegetation_neglect"%string codes) /\
  0 <= scan_score r <= 3 /\
  (scan_flags r = [] -> scan_score r = 0) /\
  (scan_flags r <> [] -> 45 # 100 <= scan_score r).
Proof.
  cbv zeta. unfold scan_single_parcel, generate_all_flags. cbv zeta.
  cbn [scan_flags scan_score fmap option_fmap option_map].
  pose proof (pass1_overgrowth naip) as Hog. cbv zeta in Hog.
  pose proof (signal_code_overgrowth (naip_for_flags naip) None) as Cog.
  pose proof (neglect_fired (naip_for_flags naip) f) as Hng.
  pose proof (signal_code_neglect (naip_for_flags naip) f) as Cng.
  pose proof (flood_confidence_values f) as Hfl.
  pose proof (signal_code_flood f) as Cfl.
  cbn [List.filter]. rewrite (pass1_structural naip).
  change (flag (evaluate_usps_vacancy None)) with false. cbv iota.
  change (flag (of_overgrowth ?r)) with (Flags.flag r).
  set (og := Flags.evaluate_vegetation_overgrowth _ _) in *.
  set (ng := evaluate_vegetation_neglect _ _) in *.
  set (fl := evaluate_flood_risk _) in *.
  assert (Hex : Flags.flag og = true -> flag ng = true -> False).
  { intros H1 H2. destruct (Hog H1) as (_ & v & Hv & Hlt).
    apply Hng in H2 as (_ & n & c & Hn & Hc & Hr).
    unfold naip_for_flags in Hn. rewrite Hv in Hn. injection Hn as <-.
    cbn in Hc. injection Hc as <-. lra. }
  assert (Hround : forall x, 45 # 100 <= x <= 3 ->
            0 <= Py.round (Py.min x 10) 2 <= 3 /\ 45 # 100 <= Py.round (Py.min x 10) 2).
  { intros x Hx.
    assert (Hm : 45 # 100 <= Py.min x 10 <= 3).
    { split; [apply min_glb; lra | eapply Qle_trans; [apply min_le_l | lra]]. }
    pose proof (round_between_ints (Py.min x 10) 2 0 3) as Hb.
    pose proof (round_lower (Py.min x 10) 2 45) as Hl.
    change (10 ^ Z.of_nat 2)%Z with 100%Z in Hl.
    split; [apply Hb; unfold inject_Z; lra|].
    assert (He : inject_Z 45 / inject_Z 100 == 45 # 100) by reflexivity.
    rewrite <- He. apply Hl. unfold inject_Z. lra. }
  unfold distress_score.
  destruct (Flags.flag og) eqn:Fog, (flag ng) eqn:Fng, (flag fl) eqn:Ffl;
    try (exfalso; by apply Hex);
    cbn [map fold_left of_overgrowth signal_code confidence];
    rewrite ?Cog, ?Cng, ?Cfl;
    repeat match goal with
           | |- context [weight_of ?c] =>
               let w := eval vm_compute in (weight_of c) in
               change (weight_of c) with w
           end.
  - destruct (Hog eq_refl) as [-> _]. destruct (Hfl eq_refl) as [-> | ->].
    + destruct (Hround (0 + 2 * (6 # 10) + (15 # 10) * 1)) as [? ?]; [lra|].
      split; [repeat constructor|]. split; [cbn; intuition discriminate|].
      repeat split; try done; tauto.
    + destruct (Hround (0 + 2 * (6 # 10) + (15 # 10) * (6 # 10))) as [? ?]; [lra|].
      split; [repeat constructor|]. split; [cbn; intuition discriminate|].
      repeat split; try done; tauto.
  - destruct (Hog eq_refl) as [-> _].
    destruct (Hround (0 + 2 * (6 # 10))) as [? ?]; [lra|].
    split; [repeat constructor|]. split; [cbn; intuition discriminate|].
    repeat split; try done; tauto.
  - destruct (Hng eq_refl) as [Hc _]. destruct (Hfl eq_refl) as [-> | ->].
    + destruct (Hround (0 + (15 # 10) * confidence ng + (15 # 10) * 1)) as [? ?];
        [lra|].
      split; [repeat constructor|]. split; [cbn; intuition discriminate|].
      repeat split; try done; tauto.
    + destruct (Hround (0 + (15 # 10) * confidence ng + (15 # 10) * (6 # 10)))
        as [? ?]; [lra|].
      split; [repeat constructor|]. split; [cbn; intuition discriminate|].
      repeat split; try done; tauto.
  - destruct (Hng eq_refl) as [Hc _].
    destruct (Hround (0 + (15 # 10) * confidence ng)) as [? ?]; [lra|].
    split; [repeat constructor|]. split; [cbn; intuition discriminate|].
    repeat split; try done; tauto.
  - destruct (Hfl eq_refl) as [-> | ->].
    + destruct (Hround (0 + (15 # 10) * 1)) as [? ?]; [lra|].
      split; [repeat constructor|]. split; [cbn; intuition discriminate|].
      repeat split; try done; tauto.
    + destruct (Hround (0 + (15 # 10) * (6 # 10))) as [? ?]; [lra|].
      split; [repeat constructor|]. split; [cbn; intuition discriminate|].
      repeat split; try done; tauto.
  - split; [repeat constructor|]. split; [cbn; tauto|].
    change (Py.round (Py.min 0 10) 2) with 0.
    repeat split; try done; lra.
Qed.

End ScanFacts.

Section DbFrame.
Import Db.

Ltac solve_elem :=
  by repeat first [apply list_elem_of_here | apply list_elem_of_further].

Lemma assigned_None (c : string) (stmt : update_stmt) :
  c ∉ set_clause stmt -> assigned c stmt = None.
Proof.
  unfold set_clause. induction stmt as [|[c' e] rest IH]; intros H; simpl; [done|].
  simpl in H. apply not_elem_of_cons in H as [Hne Hrest].
  rewrite (IH Hrest). destruct (String.eqb c' c) eqn:E; [|done].
  apply String.eqb_eq in E. by subst.
Qed.

Lemma keeps_refl cols cur : keeps cols cur cur.
Proof. by intros c _. Qed.

Lemma keeps_trans cols a b c : keeps cols a b -> keeps cols b c -> keeps cols a c.
Proof. intros H1 H2 k Hk. by rewrite (H2 k Hk), (H1 k Hk). Qed.

Lemma keeps_mono cols cols' a b : cols ⊆ cols' -> keeps cols a b -> keeps cols' a b.
Proof. intros Hs H c Hc. apply H. intros Hin. apply Hc. by apply Hs. Qed.

Lemma set_columns_keeps now stmt params cur cur' :
  set_columns now stmt params cur cur = Some cur' -> keeps (set_clause stmt) cur cur'.
Proof.
  intros H c Hc. rewrite (set_columns_lookup _ _ _ _ _ _ c H).
  by rewrite (assigned_None c stmt Hc).
Qed.

Lemma execute_batch_keeps now stmt cols argslist t t' :
  set_clause stmt ⊆ cols ->
  execute_batch now stmt argslist t = Some t' -> Forall2 (keeps cols) t t'.
Proof.
  intros Hs. apply execute_batch_lift.
  - apply keeps_refl.
  - apply keeps_trans.
  - intros params cur cur' H. eapply keeps_mono; [exact Hs|].
    by eapply set_columns_keeps.
Qed.

Lemma chunked_update_keeps now stmt results t :
  Forall2 (keeps (set_clause stmt)) t (committed (chunked_update now stmt results t)).
Proof.
  apply chunked_update_lift.
  - apply keeps_refl.
  - apply keeps_trans.
  - apply set_columns_keeps.
Qed.

Lemma Forall2_keeps_trans cols t1 t2 t3 :
  Forall2 (keeps cols) t1 t2 -> Forall2 (keeps cols) t2 t3 -> Forall2 (keeps cols) t1 t3.
Proof. apply Forall2_R_trans, keeps_trans. Qed.

Lemma usps_update_keeps now results t :
  Forall2 (keeps usps_columns) t (committed (batch_update_usps_results now results t)).
Proof.
  unfold batch_update_usps_results.
  destruct (execute_batch now usps_success_sql _ t) as [t1|] eqn:E1;
    [|apply Forall2_R_refl, keeps_refl].
  destruct (execute_batch now usps_transient_sql _ t1) as [t2|] eqn:E2;
    [|apply Forall2_R_refl, keeps_refl].
  destruct (execute_batch now usps_permanent_sql _ t2) as [t3|] eqn:E3;
    [|apply Forall2_R_refl, keeps_refl].
  cbn [committed].
  eapply Forall2_keeps_trans; [|eapply Forall2_keeps_trans].
  - eapply execute_batch_keeps; [|exact E1]. done.
  - eapply execute_batch_keeps; [|exact E2].
    unfold usps_columns, set_clause. cbn. intros c Hc.
    repeat (apply elem_of_cons in Hc as [->|Hc]; [solve_elem|]).
    by apply elem_of_nil in Hc.
  - eapply execute_batch_keeps; [|exact E3].
    unfold usps_columns, set_clause. cbn. intros c Hc.
    repeat (apply elem_of_cons in Hc as [->|Hc]; [solve_elem|]).
    by apply elem_of_nil in Hc.
Qed.

(** Each batched update, whatever the batch and whether or not it raises,
    leaves the table with the same rows in the same order, and every row
    with the columns its [SET] clause does not name as they were; the
    identifying columns [parcel_id] and [county] are among them. *)
Theorem batch_updates_touch_only_their_columns
    (now : Z) (results t : list (gmap string value)) :
  let same_identity (old new : gmap string value) :=
    new !! "parcel_id"%string = old !! "parcel_id"%string /\
    new !! "county"%string = old !! "county"%string in
  let frame cols old new := keeps cols old new /\ same_identity old new in
  Forall2 (frame (set_clause scan_update_sql)) t
          (committed (batch_update_scan_results now results t)) /\
  Forall2 (frame (set_clause slope_update_sql)) t
          (committed (batch_update_slope_results now results t)) /\
  Forall2 (frame (set_clause sentinel_update_sql)) t
          (committed (batch_update_sentinel_results now results t)) /\
  Forall2 (frame (set_clause usps_success_sql)) t
          (committed (batch_update_usps_results now results t)).
Proof.
  cbv zeta.
  assert (Hid : forall cols old new,
            bool_decide ("parcel_id"%string ∉ cols) = true ->
            bool_decide ("county"%string ∉ cols) = true ->
            keeps cols old new ->
            keeps cols old new /\
            new !! "parcel_id"%string = old !! "parcel_id"%string /\
            new !! "county"%string = old !! "county"%string).
  { intros cols old new H1 H2 Hk.
    apply bool_decide_eq_true in H1. apply bool_decide_eq_true in H2.
    split; [done|]. split; by apply Hk. }
  repeat split.
  - eapply Forall2_impl; [apply chunked_update_keeps|].
    intros old new. by apply Hid.
  - eapply Forall2_impl; [apply chunked_update_keeps|].
    intros old new. by apply Hid.
  - eapply Forall2_impl; [apply chunked_update_keeps|].
    intros old new. by apply Hid.
  - eapply Forall2_impl; [apply usps_update_keeps|].
    intros old new. by apply Hid.
Qed.

End DbFrame.

Section UspsSelection.
Import Db.

Lemma update_rows_spec now stmt params t t' :
  update_rows now stmt params t = Some t' ->
  Forall2 (fun old new =>
             if where_matches params old
             then set_columns now stmt params old old = Some new
             else new = old) t t'.
Proof.
  revert t'. induction t as [|cur rest IH]; intros t' H; simpl in H.
  - injection H as <-. constructor.
  - destruct (where_matches params cur) eqn:Ew.
    + destruct (set_columns now stmt params cur cur) as [cur'|] eqn:Es; [|done].
      destruct (update_rows now stmt params rest) as [rest'|]; [|done].
      injection H as <-. constructor; [by rewrite Ew | by apply IH].
    + destruct (update_rows now stmt params rest) as [rest'|]; [|done].
      injection H as <-. constructor; [by rewrite Ew | by apply IH].
Qed.

Lemma Forall2_compose {A} (R1 R2 : A -> A -> Prop) (l1 l2 l3 : list A) :
  Forall2 R1 l1 l2 -> Forall2 R2 l2 l3 ->
  Forall2 (fun a c => exists b, R1 a b /\ R2 b c) l1 l3.
Proof.
  intros H12. revert l3. induction H12; intros l3 H23; inversion H23; subst;
    constructor; eauto.
Qed.

Lemma where_matches_keeps cols params old new :
  keeps cols old new ->
  "parcel_id"%string ∉ cols -> "county"%string ∉ cols ->
  where_matches params new = where_matches params old.
Proof.
  intros Hk H1 H2. unfold where_matches, column. by rewrite (Hk _ H1), (Hk _ H2).
Qed.

(** What a batch of one statement does to each row, when every execution
    of the statement leaves a row in a state [P]. *)
Section Batch.
Variable now : Z.
Variable stmt : update_stmt.
Variable P : gmap string value -> Prop.
Hypothesis stmt_identity :
  ("parcel_id"%string ∉ set_clause stmt) /\ ("county"%string ∉ set_clause stmt).

Lemma execute_batch_rows args t t' :
  (forall p cur cur', In p args ->
     set_columns now stmt p cur cur = Some cur' -> P cur') ->
  execute_batch now stmt args t = Some t' ->
  Forall2 (fun old new =>
             (hits args old -> P new) /\
             (~ hits args old -> new = old) /\
             (P old -> P new) /\
             keeps (set_clause stmt) old new) t t'.
Proof.
  destruct stmt_identity as [Hpid Hcty].
  revert t. induction args as [|p rest IH]; intros t Hset H; simpl in H.
  - injection H as <-. apply Forall_Forall2_diag, Forall_forall. intros cur _.
    split; [by intros (? & [] & _)|]. repeat split; done.
  - destruct (execute now stmt p t) as [t1|] eqn:Ex; [|done].
    unfold execute in Ex. destruct (forallb _ _); [|done].
    apply update_rows_spec in Ex.
    assert (Hrest : forall q cur cur', In q rest ->
              set_columns now stmt q cur cur = Some cur' -> P cur').
    { intros q cur cur' Hq. apply Hset. by right. }
    specialize (IH t1 Hrest H).
    eapply Forall2_impl; [exact (Forall2_compose _ _ _ _ _ Ex IH)|].
    intros old new (mid & H1 & H2 & H3 & H4 & H5). cbv beta in H1.
    assert (Hk : keeps (set_clause stmt) old mid).
    { destruct (where_matches p old); [by eapply set_columns_keeps | subst; apply keeps_refl]. }
    assert (Hw : forall r, where_matches r mid = where_matches r old).
    { intros r. by eapply where_matches_keeps. }
    assert (Hh : hits rest mid <-> hits rest old).
    { unfold hits. split; intros (r & Hr & Hm); exists r; split; auto;
        [by rewrite <- Hw | by rewrite Hw]. }
    assert (Hmid : where_matches p old = true -> P mid).
    { intros Hm. rewrite Hm in H1. eapply (Hset p); [by left | exact H1]. }
    assert (Hmid' : P old -> P mid).
    { intros Ho. destruct (where_matches p old) eqn:Hm; [by apply Hmid | by subst]. }
    split; [|split; [|split]].
    + intros (r & [<-|Hr] & Hm).
      * apply H4. by apply Hmid.
      * apply H2. apply Hh. by exists r.
    + intros Hno. rewrite H3.
      * destruct (where_matches p old) eqn:Hm; [|done].
        destruct Hno. exists p. split; [by left | done].
      * intros Hr. apply Hno. apply Hh in Hr as (r & Hr & Hm).
        exists r. split; [by right | done].
    + intros Ho. by apply H4, Hmid'.
    + by eapply keeps_trans.
Qed.
End Batch.

Lemma error_param_not_null (k : usps_kind) (r : gmap string value) :
  k <> Success -> is_kind k r = true ->
  exists v, r !! "usps_error"%string = Some v /\ v <> VNull.
Proof.
  unfold is_kind, usps_kind_of. intros Hk H.
  destruct (r !! "usps_error"%string) as [v|] eqn:E.
  - exists v. split; [done|]. intros ->. simpl in H. by destruct k.
  - simpl in H. by destruct k.
Qed.

Lemma usps_partition_length (results : list (gmap string value)) :
  (length (List.filter (is_kind Success) results)
   + length (List.filter (is_kind Transient) results)
   + length (List.filter (is_kind Permanent) results))%nat = length results.
Proof.
  induction results as [|r rest IH]; [done|].
  cbn [List.filter].
  assert (Hk : forall k, is_kind k r = match k, usps_kind_of r with
                                     | Success, Success | Transient, Transient
                                     | Permanent, Permanent => true
                                     | _, _ => false
                                     end) by reflexivity.
  rewrite !Hk. destruct (usps_kind_of r); cbn [length]; lia.
Qed.

(** [batch_update_usps_results] is one transaction over all of the batch:
    it either raises and leaves the table as it was, or returns the size of
    the batch, every result having gone to exactly one of the three
    groups. *)
Theorem usps_update_counts_every_result
    (now : Z) (results t : list (gmap string value)) :
  let r := batch_update_usps_results now results t in
  (returned r = None /\ committed r = t) \/
  returned r = Some (Z.of_nat (length results)).
Proof.
  cbv zeta. unfold batch_update_usps_results.
  destruct (execute_batch now usps_success_sql _ t) as [t1|]; [|by left].
  destruct (execute_batch now usps_transient_sql _ t1) as [t2|]; [|by left].
  destruct (execute_batch now usps_permanent_sql _ t2) as [t3|]; [|by left].
  right. cbn [returned]. f_equal. rewrite <- (usps_partition_length results). lia.
Qed.

(** The update followed by the selection of the next run.  A row that an
    errored result of the batch names, transient or permanent, meets the
    retry condition of [get_parcels_needing_usps] at any later time; a
    row named by successful results only meets it once the check is older
    than the interval; any other row is as it was. *)
Theorem usps_update_then_select
    (now : Z) (results t : list (gmap string value)) (n : Z) :
  returned (batch_update_usps_results now results t) = Some n ->
  Forall2 (usps_row_outcome now results)
          t (committed (batch_update_usps_results now results t)).
Proof.
  unfold batch_update_usps_results, usps_row_outcome.
  destruct (execute_batch now usps_success_sql _ t) as [t1|] eqn:E1; [|done].
  destruct (execute_batch now usps_transient_sql _ t1) as [t2|] eqn:E2; [|done].
  destruct (execute_batch now usps_permanent_sql _ t2) as [t3|] eqn:E3; [|done].
  intros _. cbn [committed].
  assert (Hid : forall stmt, bool_decide ("parcel_id"%string ∉ set_clause stmt) = true ->
                  bool_decide ("county"%string ∉ set_clause stmt) = true ->
                  ("parcel_id"%string ∉ set_clause stmt) /\
                  ("county"%string ∉ set_clause stmt)).
  { intros stmt H1 H2. split; by eapply bool_decide_eq_true. }
  pose proof (execute_batch_rows now usps_success_sql (usps_checked_at now)
                (Hid usps_success_sql eq_refl eq_refl)
                (List.filter (is_kind Success) results) t t1) as H1.
  pose proof (execute_batch_rows now usps_transient_sql usps_error_set
                (Hid usps_transient_sql eq_refl eq_refl)
                (List.filter (is_kind Transient) results) t1 t2) as H2.
  pose proof (execute_batch_rows now usps_permanent_sql usps_error_set
                (Hid usps_permanent_sql eq_refl eq_refl)
                (List.filter (is_kind Permanent) results) t2 t3) as H3.
  assert (Herr : forall k stmt p cur cur',
            k <> Success ->
            assigned "usps_error" stmt = Some (Param "usps_error") ->
            In p (List.filter (is_kind k) results) ->
            set_columns now stmt p cur cur = Some cur' -> usps_error_set cur').
  { intros k stmt p cur cur' Hk Ha Hp Hs.
    apply filter_In in Hp as [_ Hp].
    destruct (error_param_not_null k p Hk Hp) as (v & Hv & Hnn).
    unfold usps_error_set, column.
    rewrite (set_columns_lookup _ _ _ _ _ _ "usps_error" Hs), Ha. cbn.
    by rewrite Hv. }
  specialize (H1 ltac:(intros p cur cur' _ Hs;
                       destruct (usps_statement_effect now p cur cur') as (Hsu & _);
                       destruct (Hsu Hs) as [Hd He];
                       unfold usps_checked_at, column; by rewrite Hd, He) E1).
  specialize (H2 ltac:(intros p cur cur'; by apply (Herr Transient)) E2).
  specialize (H3 ltac:(intros p cur cur'; by apply (Herr Permanent)) E3).
  pose proof (Forall2_compose _ _ _ _ _ H1 (Forall2_compose _ _ _ _ _ H2 H3)) as H.
  eapply Forall2_impl; [exact H|]. clear H H1 H2 H3.
  intros old new (r1 & (S1 & S2 & S3 & K1) & r2 & (T1 & T2 & T3 & K2)
                  & (P1 & P2 & P3 & K3)).
  cbv zeta.
  assert (Hh : forall args a b cols,
            keeps cols a b ->
            bool_decide ("parcel_id"%string ∉ cols) = true ->
            bool_decide ("county"%string ∉ cols) = true ->
            (hits args b <-> hits args a)).
  { intros args a b cols Hk H1 H2.
    apply bool_decide_eq_true in H1. apply bool_decide_eq_true in H2.
    unfold hits. split; intros (r & Hr & Hm); exists r; split; auto.
    - by rewrite <- (where_matches_keeps cols r a b).
    - by rewrite (where_matches_keeps cols r a b). }
  pose proof (fun args => Hh args old r1 _ K1 eq_refl eq_refl) as H1.
  pose proof (fun args => Hh args r1 r2 _ K2 eq_refl eq_refl) as H2.
  assert (Hdue : usps_error_set new ->
                 forall now' interval, usps_retry_due now' interval new = true).
  { unfold usps_error_set, usps_retry_due. intros He now' interval.
    apply orb_true_iff. right. by destruct (column new "usps_error"). }
  split; [|split].
  - intros [Ht|Hp].
    + apply Hdue, P3, T1, H1, Ht.
    + apply Hdue, P1, H2, H1, Hp.
  - intros Hs Ht Hp now' interval.
    rewrite P2, T2 by (rewrite ?H2, H1; done).
    destruct (S1 Hs) as [Hd He]. unfold usps_retry_due. by rewrite Hd, He, orb_false_r.
  - intros Hs Ht Hp.
    rewrite P2, T2 by (rewrite ?H2, H1; done). by apply S2.
Qed.

(** A permanent error and a row of the same parcel. *)
Lemma usps_update_then_select_witness :
  returned (batch_update_usps_results 1700000000 [usps_timeout_result]
              [parcel_P1 (VInt 1)]) = Some 1%Z /\
  Forall2 (usps_row_outcome 1700000000 [usps_timeout_result])
          [parcel_P1 (VInt 1)]
          (committed (batch_update_usps_results 1700000000 [usps_timeout_result]
                        [parcel_P1 (VInt 1)])).
Proof.
  split; [vm_compute; reflexivity|].
  apply (usps_update_then_select 1700000000 [usps_timeout_result]
           [parcel_P1 (VInt 1)] 1).
  vm_compute. reflexivity.
Defined.

End UspsSelection.

Section SlopeDenominator.
Import Baseline.
Local Open Scope Q_scope.












End SlopeDenominator.

Section HistoryFacts.
Import Baseline Planetary SlopeParcel.
Local Open Scope Q_scope.






End HistoryFacts.

Section HistoryLoop.
Import Baseline Planetary SlopeParcel.
Local Open Scope Q_scope.

Lemma historical_loop_forget cache read items :
  historical_loop (forget_misses cache) read items = historical_loop cache read items.
Proof.
  induction items as [|it rest IH]; [done|].
  cbn [historical_loop]. rewrite IH.
  destruct (historical_loop cache read rest) as [results writes].
  unfold forget_misses.
  destruct (cache (year it)) as [c|]; [|done].
  destruct (e_ndvi c) eqn:E; [by rewrite E | done].
Qed.

Lemma historical_loop_results cache read items :
  Forall (fun e => e_ndvi e <> None) (historical_loop cache read items).1 /\
  (length (historical_loop cache read items).1 <= length items)%nat /\
  ((forall y c, cache y = Some c -> e_year c = y) ->
   sublist (map e_year (historical_loop cache read items).1) (map year items)).
Proof.
  induction items as [|it rest IH]; [by repeat constructor|].
  cbn [historical_loop].
  destruct (historical_loop cache read rest) as [results writes].
  cbn [fst] in IH. destruct IH as (IH1 & IH2 & IH3).
  assert (Hread :
    let r := match ndvi (read it) with
             | Some v =>
                 ({| e_year := year it; e_ndvi := Some v; e_date := date it |} :: results,
                  (year it, {| e_year := year it; e_ndvi := Some v; e_date := date it |})
                    :: writes)
             | None =>
                 (results,
                  (year it, {| e_year := year it; e_ndvi := None; e_date := date it |})
                    :: writes)
             end in
    Forall (fun e => e_ndvi e <> None) r.1 /\
    (length r.1 <= length (it :: rest))%nat /\
    ((forall y c, cache y = Some c -> e_year c = y) ->
     sublist (map e_year r.1) (map year (it :: rest)))).
  { cbv zeta. destruct (ndvi (read it)) as [v|]; cbn [fst length map e_year].
    - split; [by constructor|]. split; [lia|]. intros Hc. constructor. by apply IH3.
    - split; [done|]. split; [lia|]. intros Hc. constructor. by apply IH3. }
  destruct (cache (year it)) as [c|] eqn:Ec; [|exact Hread].
  destruct (e_ndvi c) eqn:En; [|exact Hread].
  cbn [fst length map]. split; [constructor; [by rewrite En | done]|].
  split; [lia|]. intros Hc. rewrite (Hc _ _ Ec). constructor. by apply IH3.
Qed.

(** [get_historical_ndvi] never returns an entry without NDVI and never
    more entries than items.  A miss that was cached changes nothing: the
    test on the cached entry rejects it and the COG is read again, with the
    same results and the same cache writes as without the entry. *)
Theorem cached_miss_is_read_again
    (cache : Z -> option entry) (read : item -> ndvi_reading) (items : list item) :
  historical_loop (forget_misses cache) read items = historical_loop cache read items /\
  Forall (fun e => e_ndvi e <> None) (get_historical_ndvi cache read items) /\
  (length (get_historical_ndvi cache read items) <= length items)%nat.
Proof.
  split; [apply historical_loop_forget|].
  unfold get_historical_ndvi.
  destruct (historical_loop_results cache read items) as (H1 & H2 & _). done.
Qed.

End HistoryLoop.

Section SlopeParcelFacts.
Import Baseline Planetary SlopeParcel.
Local Open Scope Q_scope.








End SlopeParcelFacts.

Section NdviRange.
Import Baseline Planetary.
Local Open Scope Q_scope.

Lemma ratio_between (n r : Q) :
  0 <= n -> 0 <= r -> 0 < n + r -> -1 <= (n - r) / (n + r) <= 1.
Proof.
  intros Hn Hr Hs. split.
  - apply Qle_shift_div_l; [done | lra].
  - apply Qle_shift_div_r; [done | lra].
Qed.

Lemma Sigma_between (l : list Q) :
  Forall (fun x => -1 <= x <= 1) l ->
  - inject_Z (Z.of_nat (length l)) <= Sigma (fun x => x) l
  <= inject_Z (Z.of_nat (length l)).
Proof.
  induction 1 as [|x l Hx _ IH].
  - change (- 0 <= 0 <= 0). lra.
  - cbn [Sigma fold_right length].
    fold (Sigma (fun x : Q => x) l).
    rewrite Nat2Z.inj_succ, <- Z.add_1_r, inject_Z_plus.
    change (inject_Z 1) with 1. lra.
Qed.

Lemma mean_between (l : list Q) :
  l <> [] -> Forall (fun x => -1 <= x <= 1) l -> -1 <= mean l <= 1.
Proof.
  intros Hne Hall. unfold mean.
  pose proof (Sigma_between l Hall) as Hs.
  assert (Hsum : sumQ l == Sigma (fun x => x) l).
  { rewrite <- (map_id l) at 1. apply sumQ_Sigma. }
  assert (Hpos : 0 < inject_Z (Z.of_nat (length l))).
  { destruct l; [done|]. change 0 with (inject_Z 0). rewrite <- Zlt_Qlt. simpl. lia. }
  rewrite Hsum. split.
  - apply Qle_shift_div_l; [done | lra].
  - apply Qle_shift_div_r; [done | lra].
Qed.

Lemma band_values_nonneg (src : cog) (c r w h : Z) (i : nat) :
  nonneg_pixels src ->
  Forall (fun q => 0 <= q) (band_values (read_window src c r w h) i).
Proof.
  unfold nonneg_pixels, band_values, read_window. intros Hsrc.
  apply Forall_forall. intros q Hq.
  apply list_elem_of_In, in_map_iff in Hq as (v & <- & Hv).
  apply in_concat in Hv as (row & Hrow & Hv).
  destruct (Nat.lt_ge_cases i (length (bands src))) as [Hi|Hi].
  - rewrite (nth_indep _ [] (map (fun row => take (Z.to_nat w) (drop (Z.to_nat c) row))
                                 (take (Z.to_nat h) (drop (Z.to_nat r) [])))) in Hrow
      by (by rewrite length_map).
    rewrite (map_nth (fun band => map (fun row => take (Z.to_nat w) (drop (Z.to_nat c) row))
                                      (take (Z.to_nat h) (drop (Z.to_nat r) band)))) in Hrow.
    apply in_map_iff in Hrow as (row0 & <- & Hrow0).
    assert (Hband : Forall (Forall (fun v => (0 <= v)%Z)) (nth i (bands src) [])).
    { apply (proj1 (Forall_forall _ _) Hsrc). apply list_elem_of_In. by apply nth_In. }
    assert (Hr0 : Forall (fun v => (0 <= v)%Z) row0).
    { apply (proj1 (Forall_forall _ _) Hband).
      apply list_elem_of_In in Hrow0.
      by eapply subseteq_drop, subseteq_take. }
    assert (Hvz : (0 <= v)%Z).
    { apply (proj1 (Forall_forall _ _) Hr0).
      apply list_elem_of_In in Hv.
      by eapply subseteq_drop, subseteq_take. }
    rewrite Zle_Qle in Hvz. exact Hvz.
  - rewrite nth_overflow in Hrow by (by rewrite length_map). done.
Qed.

Lemma zip_nonneg (a b : list Q) :
  Forall (fun q => 0 <= q) a -> Forall (fun q => 0 <= q) b ->
  Forall (fun p => 0 <= p.1 /\ 0 <= p.2) (zip a b).
Proof.
  intros Ha. revert b. induction Ha as [|x a Hx _ IH]; intros b Hb; [constructor|].
  destruct Hb as [|y b Hy Hb]; simpl; constructor; auto.
Qed.

(** On a raster whose pixel values are not negative (NAIP is 8-bit
    unsigned), every NDVI that [read_ndvi_from_cog] returns lies between
    -1 and 1. *)
Theorem ndvi_within_unit_interval
    (src : cog) (row col window_size : Z) (v : Q) :
  nonneg_pixels src ->
  ndvi (read_ndvi_from_cog (Located src row col) window_size) = Some v ->
  -1 <= v <= 1.
Proof.
  intros Hsrc. unfold read_ndvi_from_cog.
  set (half := (window_size / 2)%Z).
  set (r_start := Z.max 0 (row - half)).
  set (c_start := Z.max 0 (col - half)).
  set (r_end := Z.min (height src) (row + half + 1)).
  set (c_end := Z.min (width src) (col + half + 1)).
  destruct ((r_end <=? r_start)%Z || (c_end <=? c_start)%Z); [done|].
  destruct (length _ <? 4)%nat; [done|].
  set (window := read_window src c_start r_start (c_end - c_start) (r_end - r_start)).
  rewrite zip_with_Qplus, map_map, any_valid, select_where.
  pose proof (zip_nonneg _ _ (band_values_nonneg src c_start r_start (c_end - c_start)
                                (r_end - r_start) 3 Hsrc)
                (band_values_nonneg src c_start r_start (c_end - c_start)
                   (r_end - r_start) 0 Hsrc)) as Hz.
  fold window in Hz.
  set (pixels := zip (band_values window 3) (band_values window 0)) in *.
  destruct (valid_pixels pixels) as [|p ps] eqn:Ev; cbn [negb ndvi].
  - intros [= <-]. lra.
  - intros [= <-].
    assert (Hall : Forall (fun x => -1 <= x <= 1)
                     (map (fun p => (p.1 - p.2) / (p.1 + p.2)) (p :: ps))).
    { rewrite <- Ev. apply Forall_forall. intros x Hx.
      apply list_elem_of_In, in_map_iff in Hx as (q & <- & Hq).
      unfold valid_pixels in Hq. apply filter_In in Hq as [Hq Hv].
      apply list_elem_of_In in Hq.
      destruct (proj1 (Forall_forall _ _) Hz q Hq) as [H1 H2].
      apply gtb_true in Hv. by apply ratio_between. }
    assert (Hne : map (fun p : Q * Q => (p.1 - p.2) / (p.1 + p.2)) (p :: ps) <> [])
      by done.
    pose proof (mean_between _ Hne Hall) as Hm.
    exact (round_between_ints _ 4 (-1) 1 Hm).
Qed.

(** The 3 by 3 sample raster, read at its centre. *)
Lemma ndvi_within_unit_interval_witness :
  nonneg_pixels green_cog /\ -1 <= 4667 # 10000 <= 1.
Proof.
  assert (H : nonneg_pixels green_cog).
  { unfold nonneg_pixels, green_cog, flat_band. cbn [bands].
    repeat (constructor; try lia). }
  split; [exact H|].
  apply (ndvi_within_unit_interval green_cog 1 1 3 (4667 # 10000) H).
  vm_compute. reflexivity.
Defined.

(** A reading carries an NDVI or an error, never both and never neither;
    the band means come with the NDVI. *)
Theorem reading_has_ndvi_xor_error (access : cog_access) (window_size : Z) :
  let r := read_ndvi_from_cog access window_size in
  (ndvi r = None <-> error r <> None) /\
  (ndvi r = None <-> red r = None) /\
  (ndvi r = None <-> nir r = None).
Proof.
  cbv zeta. unfold read_ndvi_from_cog, failed.
  destruct access as [msg|src row col]; [by cbn|].
  cbv zeta.
  destruct (_ || _); [by cbn|].
  destruct (length _ <? 4)%nat; [by cbn|].
  destruct (negb _); cbn; intuition discriminate.
Qed.

End NdviRange.

Section SitusWellFormed.
Import PyStr Situs.
Local Open Scope string_scope.
Local Arguments String.append : simpl nomatch.

















End SitusWellFormed.
